(** * TrackOcc: the evaluation hook [CustomDistEvalHook]

    A shallow embedding of [models/hooks/eval_hook.py]: the dynamic
    evaluation-interval policy ([_calc_dynamic_intervals],
    [_decide_interval]) and the evaluation routine [_do_evaluate], which
    clears and restores the history buffers of a temporal occupancy head
    around a distributed evaluation pass.

    The integer channel bookkeeping of [models/layers/positional_encoding.py]
    is embedded as well.

    Python objects live in a heap indexed by address, so that attribute
    chains such as [runner.model.module.pts_bbox_head] may be missing
    (AttributeError) or aliased.  Fallible code returns [result _ exn];
    code that also mutates objects runs in the monad [M]. *)

From stdpp Require Import gmap strings list fin_maps sorting.

Local Open Scope Z_scope.
Set Warnings "-register-all".

(** ** Python values and exceptions *)

Inductive exn : Type :=
| AttributeError (name : string)
| UnboundLocalError (name : string)
| AssertionError
| IndexError
| TypeError
| RuntimeError
| CollaboratorError (msg : string).

(** Integers are unbounded; a tensor is its raw content; every other
    object is a reference into the heap. *)
Inductive pyval : Type :=
| PNone
| PBool (b : bool)
| PInt (z : Z)
| PStr (s : string)
| PTuple (items : list pyval)
| PList (items : list pyval)
| PTensor (data : list Z)
| PRef (a : positive).

Definition is_None (v : pyval) : bool :=
  match v with PNone => true | _ => false end.

Definition is_tuple (v : pyval) : bool :=
  match v with PTuple _ => true | _ => false end.

(** The error monad of pure, fallible code. *)
Definition res (A : Type) : Type := result A exn.

#[global] Instance res_ret : MRet res := λ A a, Ok a.
#[global] Instance res_bind : MBind res := λ A B k m,
  match m with
  | Ok a => k a
  | Error e => Error e
  end.

Definition throw {A : Type} (e : exn) : res A := Error e.

(** [l[i]] on a Python sequence: a negative index counts from the end. *)
Definition py_index {A : Type} (l : list A) (i : Z) : res A :=
  let n := Z.of_nat (length l) in
  let j := if i <? 0 then i + n else i in
  if (j <? 0) || (n <=? j) then Error IndexError
  else match l !! Z.to_nat j with
       | Some x => Ok x
       | None => Error IndexError
       end.

(** [v[i]] on a value. *)
Definition subscript (v : pyval) (i : Z) : res pyval :=
  match v with
  | PTuple items | PList items => py_index items i
  | _ => Error TypeError
  end.

(** [x < v] for an int [x]; bool is a subclass of int. *)
Definition int_lt (x : Z) (v : pyval) : res bool :=
  match v with
  | PInt y => Ok (x <? y)
  | PBool b => Ok (x <? Z.b2z b)
  | _ => Error TypeError
  end.

(** ** The interval policy *)

(** [mmcv.is_list_of(seq, tuple)]: [seq] is a list and every item is a
    tuple. *)
Definition is_list_of_tuple (seq : pyval) : bool :=
  match seq with
  | PList items => forallb is_tuple items
  | _ => false
  end.

(** [[d[k] for d in items]]. *)
Fixpoint column (k : Z) (items : list pyval) : res (list pyval) :=
  match items with
  | [] => Ok []
  | d :: rest =>
      x ← subscript d k;
      xs ← column k rest;
      mret (x :: xs)
  end.

Definition _calc_dynamic_intervals (start_interval dynamic_interval_list : pyval)
  : res (list pyval * list pyval) :=
  if negb (is_list_of_tuple dynamic_interval_list) then Error AssertionError
  else
    match dynamic_interval_list with
    | PList items =>
        ms ← column 0 items;
        ivs ← column 1 items;
        mret (PInt 0 :: ms, start_interval :: ivs)
    | _ => Error AssertionError
    end.

(** [bisect.bisect] is [bisect_right] with [lo = 0], [hi = len(a)]:
<<
    while lo < hi:
        mid = (lo + hi) // 2
        if x < a[mid]: hi = mid
        else: lo = mid + 1
    return lo
>>
    The loop runs on fuel; [length a] iterations are enough
    ([bisect_loop_fuel_irrelevant]). *)
Fixpoint bisect_loop (fuel : nat) (a : list pyval) (x : Z) (lo hi : nat)
  : res nat :=
  if negb (lo <? hi)%nat then mret lo
  else
    match fuel with
    | O => throw RuntimeError
    | S fuel' =>
        let mid := ((lo + hi) / 2)%nat in
        match a !! mid with
        | None => throw IndexError
        | Some v =>
            int_lt x v ≫= λ b : bool,
              if b then bisect_loop fuel' a x lo mid
              else bisect_loop fuel' a x (mid + 1)%nat hi
        end
    end.

Definition bisect (a : list pyval) (x : Z) : res nat :=
  bisect_loop (length a) a x 0%nat (length a).

(** The hook, as the constructor of the mmcv base class leaves it, plus the
    three attributes this class adds.  The two lists are meaningful only
    when [use_dynamic_intervals] holds. *)
Record hook : Type := Hook {
  interval : pyval;
  by_epoch : bool;
  broadcast_bn_buffer : bool;
  save_best : pyval;
  tmpdir : option string;
  gpu_collect : bool;
  dataloader_len : Z;
  use_dynamic_intervals : bool;
  dynamic_milestones : list pyval;
  dynamic_intervals : list pyval
}.

Definition set_interval (self : hook) (i : pyval) : hook :=
  Hook i (by_epoch self) (broadcast_bn_buffer self) (save_best self)
       (tmpdir self) (gpu_collect self) (dataloader_len self)
       (use_dynamic_intervals self) (dynamic_milestones self)
       (dynamic_intervals self).

Definition set_dynamic (self : hook) (use : bool) (ms ivs : list pyval)
  : hook :=
  Hook (interval self) (by_epoch self) (broadcast_bn_buffer self)
       (save_best self) (tmpdir self) (gpu_collect self)
       (dataloader_len self) use ms ivs.

(** The runner: the two model handles and the counters the hook reads. *)
Record runner : Type := Runner {
  model : pyval;
  ema_model : pyval;
  rank : Z;
  work_dir : string;
  epoch : Z;
  iter : Z
}.

(** [__init__]: [base] is the hook after [super().__init__]; without
    dynamic intervals the two tables are never assigned. *)
Definition __init__ (base : hook) (dynamic_intervals : pyval)
  : res hook :=
  if negb (is_None dynamic_intervals) then
    tables ← _calc_dynamic_intervals (interval base) dynamic_intervals;
    mret (set_dynamic base true (fst tables) (snd tables))
  else mret (set_dynamic base false [] []).

(** [progress = runner.epoch if self.by_epoch else runner.iter]. *)
Definition progress (self : hook) (r : runner) : Z :=
  if by_epoch self then epoch r else iter r.

Definition _decide_interval (self : hook) (r : runner) : res hook :=
  if use_dynamic_intervals self then
    step ← bisect (dynamic_milestones self) (progress self r + 1);
    i ← py_index (dynamic_intervals self) (Z.of_nat step - 1);
    mret (set_interval self i)
  else mret self.

(** [resolve]: the interval in force after [_decide_interval], for a hook
    constructed over [base] with the configuration [dyn]. *)
Definition resolve (base : hook) (dyn : pyval) (r : runner) : res pyval :=
  self ← __init__ base dyn;
  self' ← _decide_interval self r;
  mret (interval self').

(** The row of the milestone table [_decide_interval] selects, counted
    from one. *)
Definition selected_step (base : hook) (dyn : pyval) (r : runner) : res nat :=
  self ← __init__ base dyn;
  bisect (dynamic_milestones self) (progress self r + 1).

(** A configuration of integer pairs, [[(m1, i1), (m2, i2), ...]]. *)
Definition pairs (dyn : list (Z * Z)) : pyval :=
  PList (map (λ d, PTuple [PInt d.1; PInt d.2]) dyn).

(** The words of the specification: [i] is the interval of the greatest
    milestone of the table [T] that is [<= q]. *)
Definition greatest_milestone_le (T : list (Z * Z)) (q i : Z) : Prop :=
  ∃ m, (m, i) ∈ T ∧ m ≤ q ∧ ∀ m' i', (m', i') ∈ T → m' ≤ q → m' ≤ m.

(** A tuple long enough for [d[0]] and [d[1]]. *)
Definition has_two_fields (v : pyval) : bool :=
  match v with
  | PTuple (_ :: _ :: _) => true
  | _ => false
  end.

(** Field [k] of a tuple. *)
Definition field (k : nat) (v : pyval) : pyval :=
  match v with
  | PTuple items => default PNone (items !! k)
  | _ => PNone
  end.

Definition items_of (v : pyval) : list pyval :=
  match v with
  | PList items => items
  | _ => []
  end.

Definition well_shaped (dyn : pyval) : bool :=
  match dyn with
  | PList items => forallb has_two_fields items
  | _ => false
  end.

(** ** Objects, the heap and the monad of [_do_evaluate] *)

(** An object: its class name and its attribute dictionary. *)
Record obj : Type := Obj {
  cls : string;
  attrs : gmap string pyval
}.

(** What the hook asks of its collaborators, in call order. *)
Inductive event : Type :=
| EBroadcast (buffer : pyval) (src : Z)
| EMultiGpuTest (ema : pyval) (tmp : string) (collect : bool)
| EPrint (text : string)
| EEvaluate (results : pyval)
| ESaveCkpt (key_score : pyval).

(** The mutable world: the objects, [self.latest_results] ([None] while
    unassigned), [runner.log_buffer.output] and the collaborator calls made
    so far (oldest first). *)
Record state : Type := State {
  heap : gmap positive obj;
  latest_results : option pyval;
  log_output : gmap string pyval;
  trace : list event
}.

Definition M (A : Type) : Type := state → res A * state.

#[global] Instance M_ret : MRet M := λ A a s, (Ok a, s).
#[global] Instance M_bind : MBind M := λ A B k m s,
  match m s with
  | (Ok a, s') => k a s'
  | (Error e, s') => (Error e, s')
  end.

Definition raise {A : Type} (e : exn) : M A := λ s, (Error e, s).

Definition lift {A : Type} (r : res A) : M A := λ s, (r, s).

(** Code that only inspects the objects. *)
Definition read {A : Type} (f : gmap positive obj → res A) : M A :=
  λ s, (f (heap s), s).

Definition with_heap (s : state) (h : gmap positive obj) : state :=
  State h (latest_results s) (log_output s) (trace s).

Definition emit (e : event) : M unit := λ s,
  (Ok tt, State (heap s) (latest_results s) (log_output s) (trace s ++ [e])).

(** A collaborator may do anything to the objects, and may raise. *)
Definition effect (A : Type) : Type :=
  gmap positive obj → res A * gmap positive obj.

Definition perform {A : Type} (f : effect A) : M A :=
  λ s, let '(r, h') := f (heap s) in (r, with_heap s h').

Definition call {A : Type} (e : event) (f : effect A) : M A :=
  emit e;; perform f.

(** [v.name]; only heap objects carry the attributes read here. *)
Definition lookup_attr (h : gmap positive obj) (v : pyval) (name : string)
  : res pyval :=
  match v with
  | PRef a =>
      match h !! a with
      | Some o =>
          match attrs o !! name with
          | Some x => mret x
          | None => throw (AttributeError name)
          end
      | None => throw RuntimeError
      end
  | _ => throw (AttributeError name)
  end.

Definition getattr (v : pyval) (name : string) : M pyval :=
  read (λ h, lookup_attr h v name).

(** [v.name = x]. *)
Definition setattr (v : pyval) (name : string) (x : pyval) : M unit := λ s,
  match v with
  | PRef a =>
      match heap s !! a with
      | Some o =>
          (Ok tt, with_heap s (<[a := Obj (cls o) (<[name := x]> (attrs o))]> (heap s)))
      | None => (throw RuntimeError, s)
      end
  | _ => (throw (AttributeError name), s)
  end.

(** [v.n1.n2...]. *)
Fixpoint lookup_chain (h : gmap positive obj) (v : pyval)
    (names : list string) : res pyval :=
  match names with
  | [] => mret v
  | n :: rest => x ← lookup_attr h v n; lookup_chain h x rest
  end.

Definition chain (v : pyval) (names : list string) : M pyval :=
  read (λ h, lookup_chain h v names).

(** [v.__class__.__name__]. *)
Definition class_of (h : gmap positive obj) (v : pyval) : res string :=
  match v with
  | PNone => mret "NoneType"
  | PBool _ => mret "bool"
  | PInt _ => mret "int"
  | PStr _ => mret "str"
  | PTuple _ => mret "tuple"
  | PList _ => mret "list"
  | PTensor _ => mret "Tensor"
  | PRef a =>
      match h !! a with
      | Some o => mret (cls o)
      | None => throw RuntimeError
      end
  end.

Definition class_name (v : pyval) : M string :=
  read (λ h, class_of h v).

(** Truth value of [v] in a condition; a tensor has one only when it
    holds a single element. *)
Definition truthy (v : pyval) : res bool :=
  match v with
  | PNone => mret false
  | PBool b => mret b
  | PInt z => mret (negb (z =? 0))
  | PStr s => mret (negb (String.eqb s ""))
  | PTuple l | PList l => mret (negb (Nat.eqb (length l) 0))
  | PTensor [x] => mret (negb (x =? 0))
  | PTensor _ => throw RuntimeError
  | PRef _ => mret true
  end.

(** [v == True]; on a tensor the comparison is element-wise. *)
Definition eq_True (v : pyval) : pyval :=
  match v with
  | PBool b => PBool b
  | PInt z => PBool (z =? 1)
  | PTensor d => PTensor (map (λ x, Z.b2z (x =? 1)) d)
  | _ => PBool false
  end.

(** [v.clone()]: a tensor of the same content; nothing else is cloned. *)
Definition clone (v : pyval) : res pyval :=
  match v with
  | PTensor d => mret (PTensor d)
  | _ => throw (AttributeError "clone")
  end.

(** The function's local variables; [None] is an unbound name. *)
Record locals : Type := Locals {
  history_occ : option pyval;
  history_seq_ids : option pyval;
  history_forward_augs : option pyval;
  history_sweep_time : option pyval
}.

Definition unbound : locals := Locals None None None None.

Definition read_local (name : string) (x : option pyval) : M pyval :=
  match x with
  | Some v => mret v
  | None => raise (UnboundLocalError name)
  end.

(** [os.path.join(a, b)] on a POSIX system. *)
Definition osp_join (a b : string) : string :=
  if String.prefix "/" b then b
  else if String.eqb a "" then b
  else if String.eqb (String.substring (String.length a - 1) 1 a) "/"
       then a +:+ b
       else a +:+ "/" +:+ b.

(** ** Collaborators *)

(** Everything [_do_evaluate] calls but this file does not define: the
    class tests behind [is_parallel] and [isinstance(_, _BatchNorm)],
    torch's [named_modules], the trigger of the mmcv base class, the
    collective broadcast, the distributed test runner, the metric and the
    checkpoint writer.  [dist.broadcast] overwrites its tensor in place, so
    it is told where the tensor lives: the module and the buffer name. *)
Record collaborators : Type := Collaborators {
  parallel_class : string → bool;
  batchnorm_class : string → bool;
  named_modules : gmap positive obj → pyval → res (list pyval);
  _should_evaluate : hook → runner → bool;
  dist_broadcast : pyval → string → Z → effect unit;
  multi_gpu_test : pyval → string → bool → effect pyval;
  evaluate : runner → pyval → effect pyval;
  _save_ckpt : runner → pyval → effect unit
}.

(** Modelled from the spec: [is_parallel] of [models/hooks/utils.py], which
    is not among the sources.  The guard works "through one level of
    distribution-wrapper indirection" when "running under multi-process
    (data-distributed) execution": the test looks at the class of the model
    object, and [parallel_class] says which classes are wrappers. *)
Definition is_parallel_in (C : collaborators) (h : gmap positive obj)
    (v : pyval) : res bool :=
  name ← class_of h v; mret (parallel_class C name).

Definition is_parallel (C : collaborators) (v : pyval) : M bool :=
  read (λ h, is_parallel_in C h v).

(** ** [_do_evaluate] *)

Definition the_newline : string := String (Ascii.ascii_of_nat 10) EmptyString.

Definition primary_head : list string := ["module"; "pts_bbox_head"].
Definition shadow_head : list string := ["ema_model"; "module"; "pts_bbox_head"].

(** The condition of lines 63-64 and 113-114:
    [runner.model.module.__class__.__name__ == "TemporalOcc" and
     runner.model.module.pts_bbox_head.use_history_flag == True]. *)
Definition recognized_in (h : gmap positive obj) (r : runner) : res bool :=
  m ← lookup_chain h (model r) ["module"];
  name ← class_of h m;
  if String.eqb name "TemporalOcc" then
    flag ← lookup_chain h (model r) (primary_head ++ ["use_history_flag"]);
    truthy (eq_True flag)
  else mret false.

Definition recognized (r : runner) : M bool :=
  read (λ h, recognized_in h r).

(** [runner.<...>.history_occ = None]. *)
Definition clear_history_occ (v : pyval) (path : list string) : M unit :=
  head ← chain v path; setattr head "history_occ" PNone.

(** [runner.model.module.pts_bbox_head.<name>.clone()]. *)
Definition snapshot (r : runner) (name : string) : M pyval :=
  x ← chain (model r) (primary_head ++ [name]); lift (clone x).

(** Lines 63-78: snapshot and clear. *)
Definition isolate_enter (C : collaborators) (r : runner) : M locals :=
  recognized r ≫= λ rec : bool,
  if rec then
    is_parallel C (model r) ≫= λ par : bool,
    if par then
      occ ← chain (model r) (primary_head ++ ["history_occ"]);
      loc ← (if negb (is_None occ) then
               c1 ← snapshot r "history_occ";
               c2 ← snapshot r "history_seq_ids";
               c3 ← snapshot r "history_forward_augs";
               c4 ← snapshot r "history_sweep_time";
               mret (Locals (Some c1) (Some c2) (Some c3) (Some c4))
             else mret (Locals (Some PNone) None None None));
      clear_history_occ (model r) primary_head;;
      clear_history_occ (ema_model r) shadow_head;;
      mret loc
    else
      clear_history_occ (ema_model r) ["ema_model"; "pts_bbox_head"];;
      clear_history_occ (model r) ["pts_bbox_head"];;
      mret unbound
  else mret unbound.

(** Lines 81-85, over the modules [named_modules] yields. *)
Fixpoint broadcast_buffers (C : collaborators) (mods : list pyval) : M unit :=
  match mods with
  | [] => mret tt
  | m :: rest =>
      name ← class_name m;
      (if batchnorm_class C name then
         stats ← getattr m "track_running_stats";
         lift (truthy stats) ≫= λ on : bool,
         if on then
           var ← getattr m "running_var";
           call (EBroadcast var 0) (dist_broadcast C m "running_var" 0);;
           mean ← getattr m "running_mean";
           call (EBroadcast mean 0) (dist_broadcast C m "running_mean" 0)
         else mret tt
       else mret tt);;
      broadcast_buffers C rest
  end.

(** Lines 79-85. *)
Definition sync_bn (C : collaborators) (self : hook) (r : runner) : M unit :=
  if broadcast_bn_buffer self then
    mods ← read (λ h, named_modules C h (model r));
    broadcast_buffers C mods
  else mret tt.

(** [restore] of lines 117-120:
    [runner.model.module.pts_bbox_head.<name> = <local>.clone()]. *)
Definition restore (r : runner) (name : string) (x : option pyval) : M unit :=
  v ← read_local name x;
  c ← lift (clone v);
  head ← chain (model r) primary_head;
  setattr head name c.

(** Lines 113-126: restore. *)
Definition isolate_exit (C : collaborators) (r : runner) (loc : locals)
  : M unit :=
  recognized r ≫= λ rec : bool,
  if rec then
    is_parallel C (model r) ≫= λ par : bool,
    if par then
      occ ← read_local "history_occ" (history_occ loc);
      (if negb (is_None occ) then
         restore r "history_occ" (history_occ loc);;
         restore r "history_seq_ids" (history_seq_ids loc);;
         restore r "history_forward_augs" (history_forward_augs loc);;
         restore r "history_sweep_time" (history_sweep_time loc)
       else clear_history_occ (model r) primary_head);;
      clear_history_occ (ema_model r) shadow_head
    else
      clear_history_occ (model r) ["pts_bbox_head"];;
      clear_history_occ (ema_model r) ["ema_model"; "pts_bbox_head"]
  else mret tt.

Definition set_latest_results (v : pyval) : M unit := λ s,
  (Ok tt, State (heap s) (Some v) (log_output s) (trace s)).

Definition set_log_output (key : string) (v : pyval) : M unit := λ s,
  (Ok tt, State (heap s) (latest_results s) (<[key := v]> (log_output s))
                (trace s)).

(** Lines 103-111, on the coordinating process. *)
Definition score_and_save (C : collaborators) (self : hook) (r : runner)
    (results : pyval) : M unit :=
  if rank r =? 0 then
    emit (EPrint the_newline);;
    set_log_output "eval_iter_num" (PInt (dataloader_len self));;
    key_score ← call (EEvaluate results) (evaluate C r results);
    lift (truthy (save_best self)) ≫= λ configured : bool,
    (if configured then lift (truthy key_score) else mret false)
      ≫= λ go : bool,
    if go then call (ESaveCkpt key_score) (_save_ckpt C r key_score)
    else mret tt
  else mret tt.

(** Lines 90-111: the evaluation pass. *)
Definition evaluation_pass (C : collaborators) (self : hook) (r : runner)
  : M unit :=
  let tmp := match tmpdir self with
             | Some d => d
             | None => osp_join (work_dir r) ".eval_hook"
             end in
  ema ← chain (ema_model r) ["ema_model"];
  results ← call (EMultiGpuTest ema tmp (gpu_collect self))
                 (multi_gpu_test C ema tmp (gpu_collect self));
  set_latest_results results;;
  score_and_save C self r results.

(** The whole routine.  The [return] of line 88 leaves through the first
    branch, past [isolate_exit]. *)
Definition _do_evaluate (C : collaborators) (self : hook) (r : runner)
  : M unit :=
  loc ← isolate_enter C r;
  sync_bn C self r;;
  if negb (_should_evaluate C self r) then mret tt
  else
    evaluation_pass C self r;;
    isolate_exit C r loc.

(** ** Frames *)

(** The attributes the hook walks through to reach a head and to
    recognize the model. *)
Definition skeleton : list string :=
  ["module"; "pts_bbox_head"; "use_history_flag"; "ema_model"].

(** [keeps keys h h']: every object of [h] is still in [h'], with its
    class and with its attributes [keys] as they were. *)
Definition keeps (keys : list string) (h h' : gmap positive obj) : Prop :=
  ∀ a o, h !! a = Some o →
    ∃ o', h' !! a = Some o' ∧ cls o' = cls o ∧
          ∀ k, k ∈ keys → attrs o' !! k = attrs o !! k.

Definition effect_keeps {A : Type} (keys : list string) (f : effect A)
  : Prop :=
  ∀ h, keeps keys h (f h).2.

(** Collaborators that never touch the attributes [keys] of an existing
    object, nor its class. *)
Record respects (keys : list string) (C : collaborators) : Prop := Respects {
  respects_broadcast : ∀ m n z, effect_keeps keys (dist_broadcast C m n z);
  respects_test : ∀ m t g, effect_keeps keys (multi_gpu_test C m t g);
  respects_evaluate : ∀ r v, effect_keeps keys (evaluate C r v);
  respects_save : ∀ r v, effect_keeps keys (_save_ckpt C r v)
}.

(** [a.name = x] on the heap, for an allocated [a]. *)
Definition write (a : positive) (name : string) (x : pyval)
    (h : gmap positive obj) : gmap positive obj :=
  match h !! a with
  | Some o => <[a := Obj (cls o) (<[name := x]> (attrs o))]> h
  | None => h
  end.

(** [steps R m]: whatever its outcome, [m] moves the state along [R]. *)
Definition steps {A : Type} (R : relation state) (m : M A) : Prop :=
  ∀ s, R s (m s).2.

Definition heap_keeps (keys : list string) : relation state :=
  λ s s', keeps keys (heap s) (heap s').

Definition is_broadcast (e : event) : bool :=
  match e with EBroadcast _ _ => true | _ => false end.

(** Only broadcasts were requested, and nothing was recorded. *)
Definition only_broadcasts : relation state :=
  λ s s', latest_results s' = latest_results s ∧
          log_output s' = log_output s ∧
          ∃ evs, trace s' = trace s ++ evs ∧
                 forallb is_broadcast evs = true.

(** The four history buffers of a head. *)
Definition history_fields : list string :=
  ["history_occ"; "history_seq_ids"; "history_forward_augs";
   "history_sweep_time"].

(** [writes_only names s s']: from [s] to [s'] no object appeared or
    disappeared, no class changed, no attribute outside [names] changed,
    and nothing was recorded or asked of a collaborator. *)
Definition writes_only (names : list string) : relation state :=
  λ s s', latest_results s' = latest_results s ∧
          log_output s' = log_output s ∧
          trace s' = trace s ∧
          ∀ a, match heap s !! a, heap s' !! a with
               | Some o, Some o' =>
                   cls o' = cls o ∧
                   ∀ k, k ∉ names → attrs o' !! k = attrs o !! k
               | None, None => True
               | _, _ => False
               end.

Definition is_test (e : event) : bool :=
  match e with EMultiGpuTest _ _ _ => true | _ => false end.

(** Nothing was scored, logged or saved. *)
Definition no_scoring : relation state :=
  λ s s', log_output s' = log_output s ∧
          ∃ evs, trace s' = trace s ++ evs ∧
                 forallb (λ e, is_broadcast e || is_test e) evs = true.

(** [latest_results] untouched, the trace only extended. *)
Definition results_kept : relation state :=
  λ s s', latest_results s' = latest_results s ∧
          ∃ evs, trace s' = trace s ++ evs.

(** ** [positional_encoding.py]: the channel budgets

    The encodings are tensor arithmetic over floats; what is embedded here
    is the integer bookkeeping that decides how many channels each axis
    gets.  Python's [//] and [%] floor, as [Z.div] and [Z.modulo] do. *)

(** [SinePositionalEncoding3D.forward], lines 136-139:
<<
    dim_xy = self.num_feats // 3
    if dim_xy % 2 != 0:
        dim_xy += 1 # make sure dim_xy is even
    dim_z = self.num_feats - 2 * dim_xy
>>
    The result is [(dim_xy, dim_z)]. *)
Definition sine3d_dims (num_feats : Z) : Z * Z :=
  let dim_xy := num_feats / 3 in
  let dim_xy := if negb (dim_xy mod 2 =? 0) then dim_xy + 1 else dim_xy in
  (dim_xy, num_feats - 2 * dim_xy).

(** [CustomSinePositionalEncoding3D.forward], lines 223-224:
    [ndim = 3; pos_length = (self.num_feats // (ndim * 2)) * 2]. *)
Definition pos_length (num_feats : Z) : Z :=
  let ndim := 3 in (num_feats / (ndim * 2)) * 2.

(** Lines 254-259 of the same function.  [pos] is the concatenation of
    [pos_n], [pos_y] and [pos_x], each with [pos_length] channels, so
    [pos.size(4)] is [3 * pos_length]; [gap] channels of zeros are
    appended when [gap > 0].  The result is [(gap, channels of pos)]. *)
Definition padded_channels (num_feats : Z) : Z * Z :=
  let size4 := 3 * pos_length num_feats in
  let gap := num_feats - size4 in
  (gap, if 0 <? gap then size4 + gap else size4).

(** ** Binary search, abstractly *)

(** [k] splits [l] at [x]: everything before position [k] is [<= x],
    everything from [k] on is [> x]. *)
Definition splits (l : list Z) (x : Z) (k : nat) : Prop :=
  (k ≤ length l)%nat ∧
  (∀ i v, l !! i = Some v → (i < k)%nat → v ≤ x) ∧
  (∀ i v, l !! i = Some v → (k ≤ i)%nat → x < v).

Definition ascending (l : list Z) : Prop :=
  ∀ i j u v, l !! i = Some u → l !! j = Some v → (i ≤ j)%nat → u ≤ v.

(** ** Concrete inputs *)

(** The hook of the specification's example: base interval 5, by epoch. *)
Definition example_hook : hook :=
  Hook (PInt 5) true false (PStr "mIoU") None false 10 false [] [].

(** The example's [dynamic_intervals]. *)
Definition example_intervals : pyval := pairs [(10, 2); (20, 1)].

Definition at_epoch (p : Z) : runner := Runner PNone PNone 0 "work" p 0.

(** The example hook once constructed with [example_intervals]. *)
Definition example_configured : hook :=
  set_dynamic example_hook true [PInt 0; PInt 10; PInt 20]
              [PInt 5; PInt 2; PInt 1].

(** A small world.  Objects 1-3: the wrapped primary model and its head,
    with history; 4-7: the EMA hook, its wrapped shadow model and head;
    8: a batch-norm layer; 9-10: a wrapped model of another family;
    11-13: a model that exposes [module] and [pts_bbox_head] without being
    a parallel wrapper, and its shadow. *)
Definition new_obj (c : string) (l : list (string * pyval)) : obj :=
  Obj c (list_to_map l).

Definition head_attrs (occ seq aug swp : pyval) : list (string * pyval) :=
  [("use_history_flag", PBool true); ("history_occ", occ);
   ("history_seq_ids", seq); ("history_forward_augs", aug);
   ("history_sweep_time", swp)].

Definition world : gmap positive obj := list_to_map
  [(1%positive, new_obj "MMDistributedDataParallel" [("module", PRef 2)]);
   (2%positive, new_obj "TemporalOcc" [("pts_bbox_head", PRef 3)]);
   (3%positive, new_obj "OccHead"
      (head_attrs (PTensor [1; 2]) (PTensor [3]) (PTensor [4; 5])
                  (PTensor [6])));
   (4%positive, new_obj "ModelEMA" [("ema_model", PRef 5)]);
   (5%positive, new_obj "MMDistributedDataParallel" [("module", PRef 6)]);
   (6%positive, new_obj "TemporalOcc" [("pts_bbox_head", PRef 7)]);
   (7%positive, new_obj "OccHead"
      (head_attrs PNone (PTensor [9]) (PTensor [8]) (PTensor [7])));
   (8%positive, new_obj "BatchNorm2d"
      [("track_running_stats", PBool true); ("running_var", PTensor [5]);
       ("running_mean", PTensor [6])]);
   (9%positive, new_obj "MMDistributedDataParallel" [("module", PRef 10)]);
   (10%positive, new_obj "BEVDet" [("bn", PRef 8)]);
   (11%positive, new_obj "Wrapper"
      [("module", PRef 2); ("pts_bbox_head", PRef 3)]);
   (12%positive, new_obj "ModelEMA" [("ema_model", PRef 13)]);
   (13%positive, new_obj "Wrapper"
      [("module", PRef 6); ("pts_bbox_head", PRef 7)])].

Definition start : state := State world None ∅ [].

Definition one_of (names : list string) (c : string) : bool :=
  existsb (String.eqb c) names.

Definition wrappers : list string :=
  ["DataParallel"; "DistributedDataParallel"; "MMDataParallel";
   "MMDistributedDataParallel"].

Definition quiet {A : Type} (a : A) : effect A := λ h, (Ok a, h).

Definition failing {A : Type} (msg : string) : effect A :=
  λ h, (Error (CollaboratorError msg), h).

(** A forward pass of the shadow model: it leaves a history in head 7. *)
Definition forward_pass : effect pyval := λ h,
  (Ok (PList [PInt 1; PInt 0]),
   write 7 "history_seq_ids" (PTensor [43])
     (write 7 "history_occ" (PTensor [42]) h)).

(** The statistics of rank 0 arrive in the buffer. *)
Definition receive (stats : gmap string pyval) : pyval → string → Z → effect unit :=
  λ m name _ h,
    (Ok tt, match m, stats !! name with
            | PRef a, Some v => write a name v h
            | _, _ => h
            end).

Definition rank0_stats : gmap string pyval :=
  list_to_map [("running_var", PTensor [50]); ("running_mean", PTensor [60])].

Definition no_traffic : pyval → string → Z → effect unit :=
  λ _ _ _, quiet tt.

Definition scene (trigger : bool)
    (broadcast : pyval → string → Z → effect unit) (test : effect pyval)
    (score : pyval) : collaborators :=
  Collaborators (one_of wrappers) (one_of ["BatchNorm2d"; "SyncBatchNorm"])
    (λ _ _, Ok [PRef 10; PRef 8]) (λ _ _, trigger)
    broadcast (λ _ _ _, test) (λ _ _, quiet score) (λ _ _, quiet tt).

Definition on_rank (k : Z) : runner := Runner (PRef 1) (PRef 4) k "work" 0 0.

(** The model handed over without its wrapper. *)
Definition bare_runner : runner := Runner (PRef 2) (PRef 4) 0 "work" 0 0.

Definition other_family_runner : runner :=
  Runner (PRef 9) (PRef 4) 1 "work" 0 0.

(** The shadow handle wraps the primary model itself. *)
Definition shared_runner : runner := Runner (PRef 1) (PRef 14) 0 "work" 0 0.

Definition shared_world : gmap positive obj :=
  <[14%positive := new_obj "ModelEMA" [("ema_model", PRef 1)]]> world.

(** The shadow model as the primary one: head 7 has no history yet. *)
Definition fresh_runner : runner := Runner (PRef 5) (PRef 4) 0 "work" 0 0.

(** No EMA hook was installed: the runner has no shadow model. *)
Definition lone_runner : runner := Runner (PRef 1) PNone 0 "work" 0 0.

(** Head 3 with its sequence ids lost. *)
Definition torn_world : gmap positive obj :=
  write 3 "history_seq_ids" PNone world.

(** Head 3 with history tracking off, and a test run that turns it on. *)
Definition untracked_world : gmap positive obj :=
  write 3 "use_history_flag" (PBool false) world.

Definition switching_on : effect pyval := λ h,
  (Ok (PList []), write 3 "use_history_flag" (PBool true) h).

Definition serial_runner : runner := Runner (PRef 11) (PRef 12) 0 "work" 0 0.

Definition syncing_hook : hook :=
  Hook (PInt 5) true true (PStr "mIoU") None false 10 false [] [].

(** * Properties *)

(** ** Binary search *)

Lemma StronglySorted_le_ascending (l : list Z) :
  StronglySorted Z.le l → ascending l.
Proof.
  induction 1 as [|y l Hs IH Hall]; intros i j u v Hi Hj Hij.
  - by rewrite lookup_nil in Hi.
  - destruct i as [|i], j as [|j]; simpl in *.
    + simplify_eq. lia.
    + simplify_eq. rewrite Forall_forall in Hall.
      apply Hall. eapply list_elem_of_lookup_2; eauto.
    + lia.
    + eapply IH; eauto. lia.
Qed.

Lemma StronglySorted_lt_le (l : list Z) :
  StronglySorted Z.lt l → StronglySorted Z.le l.
Proof.
  induction 1 as [|y l Hs IH Hall]; constructor; auto.
  eapply Forall_impl; [exact Hall|]. simpl. intros; lia.
Qed.

Lemma splits_unique (l : list Z) (x : Z) (k k' : nat) :
  splits l x k → splits l x k' → k = k'.
Proof.
  intros (Hk & Hlo & Hhi) (Hk' & Hlo' & Hhi').
  destruct (decide (k = k')) as [|Hne]; [done|exfalso].
  destruct (decide (k < k')%nat).
  - destruct (lookup_lt_is_Some_2 l k) as [v Hv]; [lia|].
    specialize (Hhi k v Hv). specialize (Hlo' k v Hv). lia.
  - destruct (lookup_lt_is_Some_2 l k') as [v Hv]; [lia|].
    specialize (Hhi' k' v Hv). specialize (Hlo k' v Hv). lia.
Qed.

Lemma splits_mono (l : list Z) (x y : Z) (k k' : nat) :
  x ≤ y → splits l x k → splits l y k' → (k ≤ k')%nat.
Proof.
  intros Hxy (Hk & Hlo & Hhi) (Hk' & Hlo' & Hhi').
  destruct (decide (k ≤ k')%nat) as [|Hgt]; [done|exfalso].
  destruct (lookup_lt_is_Some_2 l k') as [v Hv]; [lia|].
  specialize (Hhi' k' v Hv). specialize (Hlo k' v Hv). lia.
Qed.

Lemma bisect_loop_done (fuel : nat) (a : list pyval) (x : Z) (lo hi : nat) :
  (hi ≤ lo)%nat → bisect_loop fuel a x lo hi = Ok lo.
Proof.
  intros Hle. destruct fuel; simpl;
    destruct (Nat.ltb_spec lo hi); try lia; reflexivity.
Qed.

Lemma bisect_loop_step (fuel : nat) (a : list pyval) (x : Z) (lo hi : nat)
    (v : pyval) :
  (lo < hi)%nat →
  a !! ((lo + hi) / 2)%nat = Some v →
  bisect_loop (S fuel) a x lo hi =
    int_lt x v ≫= λ b : bool,
      if b then bisect_loop fuel a x lo ((lo + hi) / 2)%nat
      else bisect_loop fuel a x ((lo + hi) / 2 + 1)%nat hi.
Proof.
  intros Hlt Hv. cbn [bisect_loop].
  destruct (Nat.ltb_spec lo hi); [|lia]. cbn [negb]. by rewrite Hv.
Qed.

(** On an ascending list of ints the loop ends, with enough fuel, at the
    split point. *)
Lemma bisect_loop_splits (l : list Z) (x : Z) :
  ascending l →
  ∀ fuel lo hi,
    (lo ≤ hi ≤ length l)%nat →
    (hi - lo ≤ fuel)%nat →
    (∀ i v, l !! i = Some v → (i < lo)%nat → v ≤ x) →
    (∀ i v, l !! i = Some v → (hi ≤ i)%nat → x < v) →
    ∃ k, bisect_loop fuel (map PInt l) x lo hi = Ok k ∧ splits l x k.
Proof.
  intros Hasc. induction fuel as [|fuel IH]; intros lo hi Hb Hf Hlo Hhi.
  - assert (lo = hi) as -> by lia. exists hi.
    rewrite bisect_loop_done by lia. split; [done|].
    repeat split; [lia|done..].
  - destruct (decide (lo < hi)%nat) as [Hlt|Hge].
    + set (mid := ((lo + hi) / 2)%nat).
      assert (lo ≤ mid < hi)%nat as Hmid.
      { subst mid. split.
        - apply Nat.div_le_lower_bound; lia.
        - apply Nat.Div0.div_lt_upper_bound; lia. }
      destruct (lookup_lt_is_Some_2 l mid) as [v Hv]; [lia|].
      rewrite (bisect_loop_step _ _ _ _ _ (PInt v)) by
        (try done; fold mid; by rewrite list_lookup_fmap, Hv).
      fold mid. cbn [int_lt mbind res_bind].
      destruct (Z.ltb_spec x v) as [Hxv|Hvx].
      * apply IH; [lia|lia|done|].
        intros i w Hw Hi. specialize (Hasc mid i v w Hv Hw Hi). lia.
      * apply IH; [lia|lia| |done].
        intros i w Hw Hi. assert (i ≤ mid)%nat as Hle by lia.
        specialize (Hasc i mid w v Hw Hv Hle). lia.
    + assert (lo = hi) as -> by lia. exists hi.
      rewrite bisect_loop_done by lia. split; [done|].
      repeat split; [lia|done..].
Qed.

Lemma bisect_splits (l : list Z) (x : Z) :
  ascending l → ∃ k, bisect (map PInt l) x = Ok k ∧ splits l x k.
Proof.
  intros Hasc. unfold bisect. rewrite length_map.
  apply bisect_loop_splits; [done|lia|lia| |].
  - intros i v _ Hi. lia.
  - intros i v Hv Hi. apply lookup_lt_Some in Hv. lia.
Qed.

(** ** The interval policy *)

Lemma column_pairs (dyn : list (Z * Z)) :
  column 0 (map (λ d, PTuple [PInt d.1; PInt d.2]) dyn) = Ok (map PInt dyn.*1) ∧
  column 1 (map (λ d, PTuple [PInt d.1; PInt d.2]) dyn) = Ok (map PInt dyn.*2).
Proof.
  induction dyn as [|[m i] dyn [IH0 IH1]]; [done|].
  split; cbn [map column]; [rewrite IH0|rewrite IH1]; reflexivity.
Qed.

Lemma is_list_of_tuple_pairs (dyn : list (Z * Z)) :
  is_list_of_tuple (pairs dyn) = true.
Proof. unfold pairs; simpl. induction dyn as [|d dyn IH]; [done|]. by simpl. Qed.

Lemma init_pairs (base : hook) (dyn : list (Z * Z)) :
  __init__ base (pairs dyn) =
    Ok (set_dynamic base true (map PInt (0 :: dyn.*1))
                    (interval base :: map PInt dyn.*2)).
Proof.
  unfold __init__, _calc_dynamic_intervals.
  rewrite is_list_of_tuple_pairs. unfold pairs. cbn [is_None negb].
  destruct (column_pairs dyn) as [-> ->]. reflexivity.
Qed.

Lemma selected_step_splits (base : hook) (dyn : list (Z * Z)) (r : runner) :
  ascending (0 :: dyn.*1) →
  ∃ k, selected_step base (pairs dyn) r = Ok k ∧
       splits (0 :: dyn.*1) (progress base r + 1) k.
Proof.
  intros Hasc. unfold selected_step. rewrite init_pairs.
  cbn [mbind res_bind]. apply (bisect_splits _ _ Hasc).
Qed.

Lemma resolve_by_step (base : hook) (dyn : list (Z * Z)) (r : runner) (k : nat) :
  selected_step base (pairs dyn) r = Ok k →
  resolve base (pairs dyn) r =
    py_index (interval base :: map PInt dyn.*2) (Z.of_nat k - 1).
Proof.
  unfold selected_step, resolve, _decide_interval. rewrite init_pairs.
  cbn [mbind res_bind set_dynamic use_dynamic_intervals dynamic_milestones
       dynamic_intervals]. intros Hk.
  change (progress (Hook _ _ _ _ _ _ _ _ _ _) r) with (progress base r) in *.
  rewrite Hk. cbn [mbind res_bind].
  by destruct (py_index _ _).
Qed.

Lemma py_index_lookup {A : Type} (l : list A) (n : nat) (x : A) :
  l !! n = Some x → py_index l (Z.of_nat n) = Ok x.
Proof.
  intros Hx. pose proof (lookup_lt_Some _ _ _ Hx) as Hn. unfold py_index.
  destruct (Z.ltb_spec (Z.of_nat n) 0); [lia|].
  destruct (Z.ltb_spec (Z.of_nat n) 0); [lia|].
  destruct (Z.leb_spec (Z.of_nat (length l)) (Z.of_nat n)); [lia|].
  cbn [orb]. by rewrite Nat2Z.id, Hx.
Qed.

Lemma splits_positive (l : list Z) (x : Z) (k : nat) :
  0 ≤ x → splits (0 :: l) x k → (1 ≤ k)%nat.
Proof.
  intros Hx (_ & _ & Hhi). destruct k; [|lia].
  specialize (Hhi 0%nat 0 eq_refl). lia.
Qed.

(** The selected row, for a progress of at least [-1]: row [k - 1] of the
    table, whose milestone is the greatest one [<= progress + 1]. *)
Lemma resolve_selects (base : hook) (b : Z) (dyn : list (Z * Z)) (r : runner) :
  interval base = PInt b →
  ascending (0 :: dyn.*1) →
  -1 ≤ progress base r →
  ∃ k m i,
    selected_step base (pairs dyn) r = Ok (S k) ∧
    splits (0 :: dyn.*1) (progress base r + 1) (S k) ∧
    ((0, b) :: dyn) !! k = Some (m, i) ∧
    resolve base (pairs dyn) r = Ok (PInt i).
Proof.
  intros Hb Hasc Hp.
  destruct (selected_step_splits base dyn r Hasc) as (k & Hk & Hsp).
  assert (0 ≤ progress base r + 1) as Hx by lia.
  pose proof (splits_positive _ _ _ Hx Hsp) as Hpos.
  destruct k as [|k]; [lia|].
  destruct Hsp as (Hlen & Hlo & Hhi). cbn [length] in Hlen.
  rewrite length_fmap in Hlen.
  destruct (lookup_lt_is_Some_2 ((0, b) :: dyn) k) as [[m i] Hrow];
    [cbn [length]; lia|].
  exists k, m, i. split; [done|].
  split; [repeat split; [cbn [length]; rewrite length_fmap; lia|done..]|].
  split; [done|].
  rewrite (resolve_by_step _ _ _ _ Hk), Hb.
  replace (Z.of_nat (S k) - 1) with (Z.of_nat k) by lia.
  apply py_index_lookup.
  change (PInt b :: map PInt dyn.*2) with (map PInt (((0, b) :: dyn).*2)).
  by rewrite !list_lookup_fmap, Hrow.
Qed.

Lemma resolve_greatest (base : hook) (b : Z) (dyn : list (Z * Z)) (r : runner) :
  interval base = PInt b →
  ascending (0 :: dyn.*1) →
  -1 ≤ progress base r →
  ∃ i, resolve base (pairs dyn) r = Ok (PInt i) ∧
       greatest_milestone_le ((0, b) :: dyn) (progress base r + 1) i.
Proof.
  intros Hb Hasc Hp.
  destruct (resolve_selects base b dyn r Hb Hasc Hp)
    as (k & m & i & _ & (Hlen & Hlo & Hhi) & Hrow & Hres).
  exists i. split; [done|]. exists m.
  assert ((0 :: dyn.*1) !! k = Some m) as Hm.
  { change (0 :: dyn.*1) with (((0, b) :: dyn).*1).
    by rewrite list_lookup_fmap, Hrow. }
  split; [eapply list_elem_of_lookup_2; eauto|].
  split; [eapply Hlo; eauto|].
  intros m' i' [j Hj]%list_elem_of_lookup_1 Hle.
  assert ((0 :: dyn.*1) !! j = Some m') as Hm'.
  { change (0 :: dyn.*1) with (((0, b) :: dyn).*1).
    by rewrite list_lookup_fmap, Hj. }
  destruct (decide (S k ≤ j)%nat) as [Hge|Hlt].
  - specialize (Hhi j m' Hm' Hge). lia.
  - eapply (Hasc j k); eauto. lia.
Qed.

Ltac solve_sorted :=
  simpl;
  repeat first [ apply SSorted_nil | apply SSorted_cons
               | apply Forall_nil_2 | apply Forall_cons_2 ];
  lia.

Lemma resolve_example_closed_form (base : hook) (r : runner) :
  interval base = PInt 5 →
  -1 ≤ progress base r →
  resolve base example_intervals r =
    Ok (PInt (if progress base r + 1 <? 10 then 5
              else if progress base r + 1 <? 20 then 2 else 1)).
Proof.
  intros Hb Hp. unfold example_intervals.
  assert (ascending (0 :: [(10, 2); (20, 1)].*1)) as Hasc.
  { apply StronglySorted_le_ascending. solve_sorted. }
  destruct (resolve_selects base 5 [(10, 2); (20, 1)] r Hb Hasc Hp)
    as (k & m & i & _ & (Hlen & Hlo & Hhi) & Hrow & ->).
  do 2 f_equal. simpl in Hlen.
  destruct k as [|[|[|k]]]; [| | |lia]; simpl in Hrow; simplify_eq.
  - specialize (Hhi 1%nat 10 eq_refl).
    destruct (Z.ltb_spec (progress base r + 1) 10); lia.
  - specialize (Hlo 1%nat 10 eq_refl). specialize (Hhi 2%nat 20 eq_refl).
    destruct (Z.ltb_spec (progress base r + 1) 10); [lia|].
    destruct (Z.ltb_spec (progress base r + 1) 20); lia.
  - specialize (Hlo 2%nat 20 eq_refl).
    destruct (Z.ltb_spec (progress base r + 1) 10); [lia|].
    destruct (Z.ltb_spec (progress base r + 1) 20); lia.
Qed.

(** C3, as stated, fails: with base interval 5 and [(10,2),(20,1)] the
    progress value 9 resolves to 2, not to 5, and 19 resolves to 1, not
    to 2. *)
Lemma resolve_example_9_is_2 :
  resolve example_hook example_intervals (at_epoch 9) = Ok (PInt 2) ∧
  resolve example_hook example_intervals (at_epoch 9) ≠ Ok (PInt 5) ∧
  resolve example_hook example_intervals (at_epoch 19) ≠ Ok (PInt 2).
Proof. split; [reflexivity|]. split; vm_compute; discriminate. Qed.

(** C3, amended: with base interval 5 and [(10,2),(20,1)], for every
    progress value [p >= -1] the hook resolves to the interval of the
    greatest milestone [<= p + 1] of [(0,5),(10,2),(20,1)]; so
    resolve(0)=5, resolve(8)=5, resolve(9)=2, resolve(10)=2,
    resolve(18)=2, resolve(19)=1, resolve(20)=1 and resolve(100)=1. *)
Theorem resolve_example_table (base : hook) (r : runner) :
  interval base = PInt 5 →
  -1 ≤ progress base r →
  (∃ i, resolve base example_intervals r = Ok (PInt i) ∧
        greatest_milestone_le [(0, 5); (10, 2); (20, 1)]
                              (progress base r + 1) i) ∧
  (progress base r = 0 → resolve base example_intervals r = Ok (PInt 5)) ∧
  (progress base r = 8 → resolve base example_intervals r = Ok (PInt 5)) ∧
  (progress base r = 9 → resolve base example_intervals r = Ok (PInt 2)) ∧
  (progress base r = 10 → resolve base example_intervals r = Ok (PInt 2)) ∧
  (progress base r = 18 → resolve base example_intervals r = Ok (PInt 2)) ∧
  (progress base r = 19 → resolve base example_intervals r = Ok (PInt 1)) ∧
  (progress base r = 20 → resolve base example_intervals r = Ok (PInt 1)) ∧
  (progress base r = 100 → resolve base example_intervals r = Ok (PInt 1)).
Proof.
  intros Hb Hp. split.
  - apply resolve_greatest; [done| |done].
    apply StronglySorted_le_ascending. solve_sorted.
  - rewrite (resolve_example_closed_form base r Hb Hp).
    repeat split; intros ->; reflexivity.
Qed.

Lemma resolve_example_table_witness :
  interval example_hook = PInt 5 ∧
  -1 ≤ progress example_hook (at_epoch 19) ∧
  resolve example_hook example_intervals (at_epoch 19) = Ok (PInt 1).
Proof.
  split; [reflexivity|]. split; [vm_compute; discriminate|].
  assert (-1 ≤ progress example_hook (at_epoch 19)) as Hp
    by (vm_compute; discriminate).
  destruct (resolve_example_table example_hook (at_epoch 19) eq_refl Hp)
    as (_ & _ & _ & _ & _ & _ & H19 & _).
  exact (H19 eq_refl).
Defined.

(** C4, as stated, fails on the specification's own table: the interval
    drops from 5 to 2 between progress 0 and 10, and progress 9, below the
    first milestone 10, no longer resolves to the base interval. *)
Lemma resolve_example_decreases :
  resolve example_hook example_intervals (at_epoch 0) = Ok (PInt 5) ∧
  resolve example_hook example_intervals (at_epoch 10) = Ok (PInt 2) ∧
  ¬ (5 ≤ 2) ∧
  resolve example_hook example_intervals (at_epoch 9) ≠ Ok (PInt 5).
Proof.
  split; [reflexivity|]. split; [reflexivity|]. split; [lia|].
  vm_compute; discriminate.
Qed.

(** C4, amended: for a table with strictly increasing thresholds and
    progress values [-1 <= p1 <= p2], the row selected for [p1] is not
    after the row selected for [p2]; the resolved interval is
    non-decreasing whenever the intervals of the table are; and for every
    [p >= -1] with [p + 1] below the first configured milestone the hook
    resolves to the base interval. *)
Theorem resolve_monotone (base : hook) (b : Z) (dyn : list (Z * Z))
    (r1 r2 : runner) :
  interval base = PInt b →
  StronglySorted Z.lt (0 :: dyn.*1) →
  -1 ≤ progress base r1 →
  progress base r1 ≤ progress base r2 →
  (∃ k1 k2, selected_step base (pairs dyn) r1 = Ok k1 ∧
            selected_step base (pairs dyn) r2 = Ok k2 ∧ (k1 ≤ k2)%nat) ∧
  (StronglySorted Z.le (b :: dyn.*2) →
   ∃ i1 i2, resolve base (pairs dyn) r1 = Ok (PInt i1) ∧
            resolve base (pairs dyn) r2 = Ok (PInt i2) ∧ i1 ≤ i2) ∧
  (∀ m1 i1 rest, dyn = (m1, i1) :: rest → progress base r1 + 1 < m1 →
                 resolve base (pairs dyn) r1 = Ok (PInt b)).
Proof.
  intros Hb Hsorted Hp1 Hp12.
  pose proof (StronglySorted_le_ascending _ (StronglySorted_lt_le _ Hsorted))
    as Hasc.
  destruct (resolve_selects base b dyn r1 Hb Hasc Hp1)
    as (k1 & m1 & i1 & Hk1 & Hsp1 & Hrow1 & Hres1).
  assert (-1 ≤ progress base r2) as Hp2 by lia.
  destruct (resolve_selects base b dyn r2 Hb Hasc Hp2)
    as (k2 & m2 & i2 & Hk2 & Hsp2 & Hrow2 & Hres2).
  assert (S k1 ≤ S k2)%nat as Hk.
  { eapply (splits_mono _ (progress base r1 + 1) (progress base r2 + 1));
      [lia|done..]. }
  split; [by eauto 6|]. split.
  - intros Hiv. exists i1, i2. split; [done|]. split; [done|].
    apply StronglySorted_le_ascending in Hiv.
    apply (Hiv k1 k2); [| |lia].
    + change (b :: dyn.*2) with (((0, b) :: dyn).*2).
      by rewrite list_lookup_fmap, Hrow1.
    + change (b :: dyn.*2) with (((0, b) :: dyn).*2).
      by rewrite list_lookup_fmap, Hrow2.
  - intros m i rest -> Hlt. destruct Hsp1 as (_ & Hlo & _).
    destruct k1 as [|k1]; [simpl in Hrow1; by simplify_eq|].
    assert (1 < S (S k1))%nat as H1 by lia.
    specialize (Hlo 1%nat m eq_refl H1). lia.
Qed.

Lemma resolve_monotone_witness :
  ∃ i1 i2,
    resolve (set_interval example_hook (PInt 1)) (pairs [(10, 2); (20, 5)])
            (at_epoch 3) = Ok (PInt i1) ∧
    resolve (set_interval example_hook (PInt 1)) (pairs [(10, 2); (20, 5)])
            (at_epoch 12) = Ok (PInt i2) ∧
    i1 ≤ i2.
Proof.
  destruct (resolve_monotone (set_interval example_hook (PInt 1)) 1
              [(10, 2); (20, 5)] (at_epoch 3) (at_epoch 12) eq_refl)
    as (_ & Hiv & _);
    [solve_sorted | vm_compute; discriminate | vm_compute; discriminate |].
  apply Hiv. solve_sorted.
Defined.

(** ** Construction *)

Lemma py_index_nat {A : Type} (l : list A) (k : nat) :
  py_index l (Z.of_nat k) =
    match l !! k with Some x => Ok x | None => Error IndexError end.
Proof.
  destruct (l !! k) as [x|] eqn:Hk; [by apply py_index_lookup|].
  apply lookup_ge_None in Hk. unfold py_index.
  destruct (Z.ltb_spec (Z.of_nat k) 0); [lia|].
  destruct (Z.ltb_spec (Z.of_nat k) 0); [lia|].
  destruct (Z.leb_spec (Z.of_nat (length l)) (Z.of_nat k)); [done|lia].
Qed.

(** The comprehension over tuples: it yields the column when every tuple
    reaches index [k], and raises IndexError otherwise. *)
Lemma column_tuples (k : nat) (items : list pyval) :
  forallb is_tuple items = true →
  column (Z.of_nat k) items =
    if forallb (λ v, match v with
                     | PTuple fs => bool_decide (k < length fs)%nat
                     | _ => false
                     end) items
    then Ok (map (field k) items) else Error IndexError.
Proof.
  induction items as [|d items IH]; [done|]. cbn [forallb].
  intros [Hd Hrest]%andb_prop. destruct d as [| | | |fs| | |]; try done.
  cbn [column subscript]. rewrite py_index_nat, (IH Hrest). cbn [field].
  destruct (fs !! k) as [x|] eqn:Hx.
  - rewrite bool_decide_eq_true_2 by (by eapply lookup_lt_Some).
    cbn [andb mbind res_bind default].
    match goal with
    | |- context [forallb ?f items] => destruct (forallb f items)
    end; cbn [map field mbind res_bind mret res_ret]; by rewrite ?Hx.
  - rewrite bool_decide_eq_false_2 by (apply lookup_ge_None in Hx; lia).
    reflexivity.
Qed.

Lemma has_two_fields_spec (v : pyval) :
  has_two_fields v =
    match v with
    | PTuple fs => bool_decide (1 < length fs)%nat
    | _ => false
    end.
Proof.
  destruct v as [| | | |fs| | |]; try done.
  destruct fs as [|x [|y fs]]; try done.
Qed.

Lemma forallb_has_two_fields (items : list pyval) :
  forallb has_two_fields items =
    forallb (λ v, match v with
                  | PTuple fs => bool_decide (1 < length fs)%nat
                  | _ => false
                  end) items.
Proof.
  induction items as [|d items IH]; [done|]. cbn [forallb].
  by rewrite IH, has_two_fields_spec.
Qed.

Lemma two_fields_one_field (items : list pyval) :
  forallb has_two_fields items = true →
  forallb (λ v, match v with
                | PTuple fs => bool_decide (0 < length fs)%nat
                | _ => false
                end) items = true ∧
  forallb (λ v, match v with
                | PTuple fs => bool_decide (1 < length fs)%nat
                | _ => false
                end) items = true ∧
  forallb is_tuple items = true.
Proof.
  induction items as [|d items IH]; [done|]. cbn [forallb].
  intros [Hd (IH0 & IH1 & IHt)%IH]%andb_prop. rewrite IH0, IH1, IHt.
  destruct d as [| | | |[|x [|y fs]]| | |]; done.
Qed.

(** C9, as stated, fails: thresholds that decrease, or a milestone equal
    to the implicit 0, are accepted and stored as they come. *)
Lemma init_accepts_unordered_milestones :
  __init__ example_hook (pairs [(10, 2); (5, 1)]) =
    Ok (set_dynamic example_hook true [PInt 0; PInt 10; PInt 5]
                    [PInt 5; PInt 2; PInt 1]) ∧
  __init__ example_hook (pairs [(0, 3)]) =
    Ok (set_dynamic example_hook true [PInt 0; PInt 0] [PInt 5; PInt 3]).
Proof. split; reflexivity. Qed.

(** C9, amended: construction fails exactly when [dynamic_intervals] is
    given and is not a list of tuples (AssertionError) or holds a tuple
    with fewer than two fields (IndexError); every other configuration is
    accepted with milestones [0 :: first fields] and intervals
    [base :: second fields], whatever the order of the thresholds. *)
Theorem init_checks_shape_only (base : hook) (dyn : pyval) :
  __init__ base dyn =
    if is_None dyn then Ok (set_dynamic base false [] [])
    else if negb (is_list_of_tuple dyn) then Error AssertionError
    else if negb (well_shaped dyn) then Error IndexError
    else Ok (set_dynamic base true
               (PInt 0 :: map (field 0) (items_of dyn))
               (interval base :: map (field 1) (items_of dyn))).
Proof.
  unfold __init__, _calc_dynamic_intervals.
  destruct dyn as [| | | | |items| |]; try reflexivity.
  cbn [is_None negb is_list_of_tuple well_shaped items_of].
  destruct (forallb is_tuple items) eqn:Htup; [|reflexivity]. cbn [negb].
  pose proof (column_tuples 0 items Htup) as H0.
  pose proof (column_tuples 1 items Htup) as H1.
  change (Z.of_nat 0) with 0 in H0. change (Z.of_nat 1) with 1 in H1.
  rewrite H0, H1.
  rewrite forallb_has_two_fields.
  destruct (forallb (λ v, match v with
                          | PTuple fs => bool_decide (1 < length fs)%nat
                          | _ => false
                          end) items) eqn:Hwide.
  - assert (forallb has_two_fields items = true) as Htwo.
    { by rewrite forallb_has_two_fields. }
    destruct (two_fields_one_field items Htwo) as (-> & _ & _).
    reflexivity.
  - cbn [negb].
    match goal with
    | |- context [forallb ?f items] => destruct (forallb f items)
    end; reflexivity.
Qed.

(** ** The monad *)

Lemma bind_run {A B : Type} (m : M A) (k : A → M B) (s : state) :
  (m ≫= k) s =
    match m s with
    | (Ok a, s') => k a s'
    | (Error e, s') => (Error e, s')
    end.
Proof. reflexivity. Qed.

Lemma bind_ok {A B : Type} (m : M A) (k : A → M B) (s s' : state) (a : A) :
  m s = (Ok a, s') → (m ≫= k) s = k a s'.
Proof. intros H. by rewrite bind_run, H. Qed.

Lemma bind_error {A B : Type} (m : M A) (k : A → M B) (s s' : state) (e : exn) :
  m s = (Error e, s') → (m ≫= k) s = (Error e, s').
Proof. intros H. by rewrite bind_run, H. Qed.

Lemma read_run {A : Type} (f : gmap positive obj → res A) (s : state) :
  read f s = (f (heap s), s).
Proof. reflexivity. Qed.

Lemma with_heap_same (s : state) : with_heap s (heap s) = s.
Proof. by destruct s. Qed.

Lemma with_heap_twice (s : state) (h h' : gmap positive obj) :
  with_heap (with_heap s h) h' = with_heap s h'.
Proof. reflexivity. Qed.

Section Steps.
Context (R : relation state) `{!PreOrder R}.

Lemma steps_ret {A : Type} (a : A) : steps R (mret a).
Proof. intros s. simpl. reflexivity. Qed.

Lemma steps_raise {A : Type} (e : exn) : steps R (@raise A e).
Proof. intros s. simpl. reflexivity. Qed.

Lemma steps_lift {A : Type} (x : res A) : steps R (lift x).
Proof. intros s. simpl. reflexivity. Qed.

Lemma steps_read {A : Type} (f : gmap positive obj → res A) :
  steps R (read f).
Proof. intros s. simpl. reflexivity. Qed.

Lemma steps_bind {A B : Type} (m : M A) (k : A → M B) :
  steps R m → (∀ a, steps R (k a)) → steps R (m ≫= k).
Proof.
  intros Hm Hk s. rewrite bind_run. specialize (Hm s).
  destruct (m s) as [[a|e] s1]; simpl in *; [|done].
  etrans; [exact Hm|apply Hk].
Qed.

Lemma steps_read_local (name : string) (x : option pyval) :
  steps R (read_local name x).
Proof. destruct x; [apply steps_ret|apply steps_raise]. Qed.
End Steps.

(** ** Reading and writing the heap *)

#[global] Instance keeps_preorder (keys : list string) : PreOrder (keeps keys).
Proof.
  split.
  - intros h a o Ho. eauto.
  - intros h1 h2 h3 H12 H23 a o Ho.
    destruct (H12 a o Ho) as (o2 & Ho2 & Hc2 & Hk2).
    destruct (H23 a o2 Ho2) as (o3 & Ho3 & Hc3 & Hk3).
    exists o3. split; [done|]. split; [congruence|].
    intros k Hk. rewrite Hk3, Hk2; done.
Qed.

#[global] Instance heap_keeps_preorder (keys : list string) :
  PreOrder (heap_keeps keys).
Proof.
  split.
  - intros s. unfold heap_keeps. reflexivity.
  - intros s1 s2 s3. unfold heap_keeps. intros. by etrans.
Qed.

Lemma keeps_weaken (keys keys' : list string) (h h' : gmap positive obj) :
  keys' ⊆ keys → keeps keys h h' → keeps keys' h h'.
Proof.
  intros Hsub H a o Ho. destruct (H a o Ho) as (o' & Ho' & Hc & Hk).
  exists o'. split; [done|]. split; [done|]. intros k Hin. apply Hk.
  by apply Hsub.
Qed.

Lemma keeps_lookup_attr (keys : list string) (h h' : gmap positive obj)
    (v x : pyval) (name : string) :
  keeps keys h h' → name ∈ keys →
  lookup_attr h v name = Ok x → lookup_attr h' v name = Ok x.
Proof.
  intros Hk Hin. destruct v as [| | | | | | |a]; try done. simpl.
  destruct (h !! a) as [o|] eqn:Ho; [|done].
  destruct (Hk a o Ho) as (o' & -> & _ & Hattrs). by rewrite (Hattrs name Hin).
Qed.

Lemma keeps_lookup_chain (keys : list string) (h h' : gmap positive obj)
    (names : list string) (v x : pyval) :
  keeps keys h h' → Forall (λ n, n ∈ keys) names →
  lookup_chain h v names = Ok x → lookup_chain h' v names = Ok x.
Proof.
  intros Hk Hall. revert v.
  induction Hall as [|n names Hn Hall IH]; intros v; [done|].
  cbn [lookup_chain]. destruct (lookup_attr h v n) as [y|e] eqn:Hy; [|done].
  rewrite (keeps_lookup_attr keys h h' v y n Hk Hn Hy).
  cbn [mbind res_bind]. apply IH.
Qed.

Ltac solve_not_in := by apply (bool_decide_unpack _).

Ltac solve_names := unfold primary_head, shadow_head, skeleton; simpl;
  repeat constructor.

Lemma keeps_class_of (keys : list string) (h h' : gmap positive obj)
    (v : pyval) (c : string) :
  keeps keys h h' → class_of h v = Ok c → class_of h' v = Ok c.
Proof.
  intros Hk. destruct v as [| | | | | | |a]; try done. simpl.
  destruct (h !! a) as [o|] eqn:Ho; [|done].
  destruct (Hk a o Ho) as (o' & -> & Hc & _). simpl. by rewrite Hc.
Qed.

Lemma keeps_allocated (keys : list string) (h h' : gmap positive obj)
    (a : positive) :
  keeps keys h h' → is_Some (h !! a) → is_Some (h' !! a).
Proof. intros Hk [o Ho]. destruct (Hk a o Ho) as (o' & Ho' & _). eauto. Qed.

Lemma keeps_is_parallel (C : collaborators) (keys : list string)
    (h h' : gmap positive obj) (v : pyval) (b : bool) :
  keeps keys h h' → is_parallel_in C h v = Ok b → is_parallel_in C h' v = Ok b.
Proof.
  intros Hk. unfold is_parallel_in.
  destruct (class_of h v) as [c|e] eqn:Hc; [|done].
  by rewrite (keeps_class_of keys h h' v c Hk Hc).
Qed.

Lemma keeps_recognized (h h' : gmap positive obj) (r : runner) (b : bool) :
  keeps skeleton h h' → recognized_in h r = Ok b → recognized_in h' r = Ok b.
Proof.
  intros Hk. unfold recognized_in.
  destruct (lookup_chain h (model r) ["module"]) as [m|e] eqn:Hm; [|done].
  rewrite (keeps_lookup_chain skeleton h h' ["module"] (model r) m Hk);
    [|solve_names|done].
  cbn [mbind res_bind].
  destruct (class_of h m) as [c|e] eqn:Hc; [|done].
  rewrite (keeps_class_of skeleton h h' m c Hk Hc). cbn [mbind res_bind].
  destruct (String.eqb c "TemporalOcc"); [|done].
  destruct (lookup_chain h (model r) (primary_head ++ ["use_history_flag"]))
    as [flag|e] eqn:Hf; [|done].
  rewrite (keeps_lookup_chain skeleton h h'
             (primary_head ++ ["use_history_flag"]) (model r) flag Hk);
    [done|solve_names|done].
Qed.

Lemma write_allocated (a : positive) (name : string) (x : pyval)
    (h : gmap positive obj) (b : positive) :
  is_Some (write a name x h !! b) ↔ is_Some (h !! b).
Proof.
  unfold write. destruct (h !! a) as [o|] eqn:Ho; [|done].
  destruct (decide (a = b)) as [->|Hne].
  - rewrite lookup_insert_eq, Ho. split; eauto.
  - by rewrite lookup_insert_ne.
Qed.

Lemma lookup_attr_write_eq (a : positive) (name : string) (x : pyval)
    (h : gmap positive obj) :
  is_Some (h !! a) → lookup_attr (write a name x h) (PRef a) name = Ok x.
Proof.
  intros [o Ho]. unfold write. rewrite Ho. simpl.
  by rewrite lookup_insert_eq; simpl; rewrite lookup_insert_eq.
Qed.

Lemma lookup_attr_write_ne (a : positive) (name : string) (x : pyval)
    (h : gmap positive obj) (v : pyval) (name' : string) :
  v ≠ PRef a ∨ name' ≠ name →
  lookup_attr (write a name x h) v name' = lookup_attr h v name'.
Proof.
  intros Hne. unfold write. destruct (h !! a) as [o|] eqn:Ho; [|done].
  destruct v as [| | | | | | |b]; try done. simpl.
  destruct (decide (a = b)) as [->|Hab].
  - rewrite lookup_insert_eq, Ho. simpl.
    destruct Hne as [Hv|Hn]; [done|]. by rewrite lookup_insert_ne.
  - by rewrite lookup_insert_ne.
Qed.

Lemma keeps_write (keys : list string) (a : positive) (name : string)
    (x : pyval) (h : gmap positive obj) :
  name ∉ keys → keeps keys h (write a name x h).
Proof.
  intros Hnot b o Hb. unfold write.
  destruct (h !! a) as [oa|] eqn:Ho; [|eauto].
  destruct (decide (a = b)) as [->|Hab].
  - rewrite lookup_insert_eq. simplify_eq. eexists. split; [done|].
    split; [done|]. intros k Hk. simpl. rewrite lookup_insert_ne; [done|].
    intros ->. done.
  - rewrite lookup_insert_ne by done. eauto.
Qed.

Lemma setattr_run (a : positive) (name : string) (x : pyval) (s : state) :
  is_Some (heap s !! a) →
  setattr (PRef a) name x s = (Ok tt, with_heap s (write a name x (heap s))).
Proof. intros [o Ho]. unfold setattr, write. by rewrite Ho. Qed.

Lemma setattr_heap (v : pyval) (name : string) (x : pyval) (s : state) :
  (setattr v name x s).2 = s ∨
  ∃ a, v = PRef a ∧ (setattr v name x s).2 = with_heap s (write a name x (heap s)).
Proof.
  destruct v as [| | | | | | |a]; try (by left).
  unfold setattr, write. destruct (heap s !! a) as [o|] eqn:Ho; [|by left].
  right. exists a. by rewrite Ho.
Qed.

(** ** What each phase leaves in place *)

Ltac steps_structure :=
  repeat match goal with
    | |- steps ?R (mret _) => apply (steps_ret R)
    | |- steps ?R (raise _) => apply (steps_raise R)
    | |- steps ?R (lift _) => apply (steps_lift R)
    | |- steps ?R (read _) => apply (steps_read R)
    | |- steps ?R (read_local _ _) => apply (steps_read_local R)
    | |- steps ?R (_ ≫= _) => apply (steps_bind R); [|intros ?]
    | |- steps _ (if ?b then _ else _) => destruct b
    | |- steps _ (match ?x with _ => _ end) => destruct x
    end.

Section HeapFrames.
Context (keys : list string).

Lemma emit_keeps (e : event) : steps (heap_keeps keys) (emit e).
Proof. intros s. unfold heap_keeps. simpl. reflexivity. Qed.

Lemma perform_keeps {A : Type} (f : effect A) :
  effect_keeps keys f → steps (heap_keeps keys) (perform f).
Proof.
  intros Hf s. unfold heap_keeps, perform. specialize (Hf (heap s)).
  by destruct (f (heap s)) as [x h'].
Qed.

Lemma call_keeps {A : Type} (e : event) (f : effect A) :
  effect_keeps keys f → steps (heap_keeps keys) (call e f).
Proof.
  intros Hf. apply (steps_bind (heap_keeps keys)); [apply emit_keeps|].
  intros _. by apply perform_keeps.
Qed.

Lemma setattr_keeps (v : pyval) (name : string) (x : pyval) :
  name ∉ keys → steps (heap_keeps keys) (setattr v name x).
Proof.
  intros Hname s. unfold heap_keeps.
  destruct (setattr_heap v name x s) as [->|(a & _ & ->)]; [done|].
  simpl. by apply keeps_write.
Qed.

Lemma set_latest_results_keeps (v : pyval) :
  steps (heap_keeps keys) (set_latest_results v).
Proof. intros s. unfold heap_keeps. simpl. reflexivity. Qed.

Lemma set_log_output_keeps (key : string) (v : pyval) :
  steps (heap_keeps keys) (set_log_output key v).
Proof. intros s. unfold heap_keeps. simpl. reflexivity. Qed.

Lemma broadcast_buffers_keeps (C : collaborators) (mods : list pyval) :
  (∀ m n z, effect_keeps keys (dist_broadcast C m n z)) →
  steps (heap_keeps keys) (broadcast_buffers C mods).
Proof.
  intros HC. induction mods as [|m mods IH]; cbn [broadcast_buffers];
    unfold getattr, class_name; steps_structure;
    try apply call_keeps; auto.
Qed.

Lemma sync_bn_keeps (C : collaborators) (self : hook) (r : runner) :
  (∀ m n z, effect_keeps keys (dist_broadcast C m n z)) →
  steps (heap_keeps keys) (sync_bn C self r).
Proof.
  intros HC. unfold sync_bn. steps_structure.
  by apply broadcast_buffers_keeps.
Qed.

Lemma evaluation_pass_keeps (C : collaborators) (self : hook) (r : runner) :
  respects keys C → steps (heap_keeps keys) (evaluation_pass C self r).
Proof.
  intros [Hb Ht He Hs]. unfold evaluation_pass, score_and_save, chain.
  steps_structure;
    first [ apply call_keeps | apply set_latest_results_keeps
          | apply set_log_output_keeps | apply emit_keeps ]; auto.
Qed.
End HeapFrames.

Lemma clear_history_occ_keeps (v : pyval) (path : list string) :
  steps (heap_keeps skeleton) (clear_history_occ v path).
Proof.
  unfold clear_history_occ, chain. steps_structure.
  apply setattr_keeps. solve_not_in.
Qed.

Lemma restore_keeps (r : runner) (name : string) (x : option pyval) :
  name ∉ skeleton → steps (heap_keeps skeleton) (restore r name x).
Proof.
  intros Hn. unfold restore, chain. steps_structure. by apply setattr_keeps.
Qed.

Lemma isolate_enter_keeps (C : collaborators) (r : runner) :
  steps (heap_keeps skeleton) (isolate_enter C r).
Proof.
  unfold isolate_enter, recognized, is_parallel, snapshot, chain.
  steps_structure; apply clear_history_occ_keeps.
Qed.

Lemma isolate_exit_keeps (C : collaborators) (r : runner) (loc : locals) :
  steps (heap_keeps skeleton) (isolate_exit C r loc).
Proof.
  unfold isolate_exit, recognized, is_parallel.
  steps_structure;
    first [ apply clear_history_occ_keeps
          | apply restore_keeps; solve_not_in ].
Qed.

(** ** Running the isolation steps *)

Lemma lookup_chain_app (h : gmap positive obj) (v : pyval)
    (names : list string) (n : string) :
  lookup_chain h v (names ++ [n]) =
    lookup_chain h v names ≫= λ x, lookup_attr h x n.
Proof.
  revert v. induction names as [|m names IH]; intros v; cbn [app lookup_chain].
  - unfold mbind, res_bind, mret, res_ret. by destruct (lookup_attr h v n).
  - destruct (lookup_attr h v m) as [y|e]; cbn [mbind res_bind];
      [apply IH|done].
Qed.

Lemma lookup_chain_write (a : positive) (name : string) (y : pyval)
    (h : gmap positive obj) (v x : pyval) (names : list string) :
  name ∉ skeleton → Forall (λ n, n ∈ skeleton) names →
  lookup_chain h v names = Ok x →
  lookup_chain (write a name y h) v names = Ok x.
Proof.
  intros Hname Hnames. apply (keeps_lookup_chain skeleton); [|done].
  by apply keeps_write.
Qed.

Lemma clear_history_occ_run (v : pyval) (path : list string) (s : state)
    (a : positive) :
  lookup_chain (heap s) v path = Ok (PRef a) →
  is_Some (heap s !! a) →
  clear_history_occ v path s =
    (Ok tt, with_heap s (write a "history_occ" PNone (heap s))).
Proof.
  intros Hpath Ha. unfold clear_history_occ, chain.
  rewrite bind_run, read_run, Hpath. by apply setattr_run.
Qed.

Lemma snapshot_run (r : runner) (name : string) (s : state) (hd : positive)
    (d : list Z) :
  lookup_chain (heap s) (model r) primary_head = Ok (PRef hd) →
  lookup_attr (heap s) (PRef hd) name = Ok (PTensor d) →
  snapshot r name s = (Ok (PTensor d), s).
Proof.
  intros Hhd Hd. unfold snapshot, chain.
  rewrite bind_run, read_run, lookup_chain_app, Hhd.
  cbn [mbind res_bind]. by rewrite Hd.
Qed.

Lemma restore_run (r : runner) (name : string) (d : list Z) (s : state)
    (hd : positive) :
  lookup_chain (heap s) (model r) primary_head = Ok (PRef hd) →
  is_Some (heap s !! hd) →
  restore r name (Some (PTensor d)) s =
    (Ok tt, with_heap s (write hd name (PTensor d) (heap s))).
Proof.
  intros Hhd Ha. unfold restore, chain.
  cbv [mbind M_bind mret M_ret res_ret read read_local lift clone].
  rewrite Hhd. by apply setattr_run.
Qed.

Lemma recognized_run (r : runner) (s : state) :
  recognized r s = (recognized_in (heap s) r, s).
Proof. reflexivity. Qed.

Lemma is_parallel_run (C : collaborators) (v : pyval) (s : state) :
  is_parallel C v s = (is_parallel_in C (heap s) v, s).
Proof. reflexivity. Qed.

Lemma lookup_attr_allocated (h : gmap positive obj) (a : positive)
    (name : string) (x : pyval) :
  lookup_attr h (PRef a) name = Ok x → is_Some (h !! a).
Proof. simpl. destruct (h !! a); [eauto|done]. Qed.

(** Entry, parallel model, history present: the four tensors are copied
    into the locals and [history_occ] is set to [None] on both heads. *)
Lemma isolate_enter_parallel_run (C : collaborators) (r : runner) (s : state)
    (hd ehd : positive) (t1 t2 t3 t4 : list Z) :
  recognized_in (heap s) r = Ok true →
  is_parallel_in C (heap s) (model r) = Ok true →
  lookup_chain (heap s) (model r) primary_head = Ok (PRef hd) →
  lookup_chain (heap s) (ema_model r) shadow_head = Ok (PRef ehd) →
  is_Some (heap s !! ehd) →
  lookup_attr (heap s) (PRef hd) "history_occ" = Ok (PTensor t1) →
  lookup_attr (heap s) (PRef hd) "history_seq_ids" = Ok (PTensor t2) →
  lookup_attr (heap s) (PRef hd) "history_forward_augs" = Ok (PTensor t3) →
  lookup_attr (heap s) (PRef hd) "history_sweep_time" = Ok (PTensor t4) →
  isolate_enter C r s =
    (Ok (Locals (Some (PTensor t1)) (Some (PTensor t2)) (Some (PTensor t3))
                (Some (PTensor t4))),
     with_heap s (write ehd "history_occ" PNone
                    (write hd "history_occ" PNone (heap s)))).
Proof.
  intros Hrec Hpar Hhd Hehd Hea H1 H2 H3 H4.
  pose proof (lookup_attr_allocated _ _ _ _ H1) as Ha.
  unfold isolate_enter.
  rewrite bind_run, recognized_run, Hrec.
  rewrite bind_run, is_parallel_run, Hpar.
  unfold chain at 1. rewrite bind_run, read_run, lookup_chain_app, Hhd.
  cbn [mbind res_bind]. rewrite H1. cbn [is_None negb].
  rewrite bind_run.
  rewrite (bind_ok _ _ s s (PTensor t1)) by (by eapply snapshot_run).
  rewrite (bind_ok _ _ s s (PTensor t2)) by (by eapply snapshot_run).
  rewrite (bind_ok _ _ s s (PTensor t3)) by (by eapply snapshot_run).
  rewrite (bind_ok _ _ s s (PTensor t4)) by (by eapply snapshot_run).
  cbn [mret M_ret].
  rewrite bind_run, (clear_history_occ_run _ _ s hd Hhd Ha).
  rewrite bind_run, (clear_history_occ_run _ _ _ ehd).
  - reflexivity.
  - cbn [heap with_heap]. apply lookup_chain_write;
      [solve_not_in|solve_names|done].
  - cbn [heap with_heap]. by apply write_allocated.
Qed.

(** Entry, parallel model, no history yet: nothing to copy. *)
Lemma isolate_enter_parallel_none_run (C : collaborators) (r : runner)
    (s : state) (hd ehd : positive) :
  recognized_in (heap s) r = Ok true →
  is_parallel_in C (heap s) (model r) = Ok true →
  lookup_chain (heap s) (model r) primary_head = Ok (PRef hd) →
  lookup_chain (heap s) (ema_model r) shadow_head = Ok (PRef ehd) →
  is_Some (heap s !! ehd) →
  lookup_attr (heap s) (PRef hd) "history_occ" = Ok PNone →
  isolate_enter C r s =
    (Ok (Locals (Some PNone) None None None),
     with_heap s (write ehd "history_occ" PNone
                    (write hd "history_occ" PNone (heap s)))).
Proof.
  intros Hrec Hpar Hhd Hehd Hea H1.
  pose proof (lookup_attr_allocated _ _ _ _ H1) as Ha.
  unfold isolate_enter.
  rewrite bind_run, recognized_run, Hrec.
  rewrite bind_run, is_parallel_run, Hpar.
  unfold chain at 1. rewrite bind_run, read_run, lookup_chain_app, Hhd.
  cbn [mbind res_bind]. rewrite H1. cbn [is_None negb].
  rewrite bind_run. cbn [mret M_ret].
  rewrite bind_run, (clear_history_occ_run _ _ s hd Hhd Ha).
  rewrite bind_run, (clear_history_occ_run _ _ _ ehd).
  - reflexivity.
  - cbn [heap with_heap]. apply lookup_chain_write;
      [solve_not_in|solve_names|done].
  - cbn [heap with_heap]. by apply write_allocated.
Qed.

(** Entry, model not parallel: no local is bound; the shadow is cleared
    first, through [ema_model.pts_bbox_head]. *)
Lemma isolate_enter_serial_run (C : collaborators) (r : runner) (s : state)
    (hd ehd : positive) :
  recognized_in (heap s) r = Ok true →
  is_parallel_in C (heap s) (model r) = Ok false →
  lookup_chain (heap s) (model r) ["pts_bbox_head"] = Ok (PRef hd) →
  lookup_chain (heap s) (ema_model r) ["ema_model"; "pts_bbox_head"]
    = Ok (PRef ehd) →
  is_Some (heap s !! hd) →
  is_Some (heap s !! ehd) →
  isolate_enter C r s =
    (Ok unbound,
     with_heap s (write hd "history_occ" PNone
                    (write ehd "history_occ" PNone (heap s)))).
Proof.
  intros Hrec Hpar Hhd Hehd Ha Hea. unfold isolate_enter.
  rewrite bind_run, recognized_run, Hrec.
  rewrite bind_run, is_parallel_run, Hpar.
  rewrite bind_run, (clear_history_occ_run _ _ s ehd Hehd Hea).
  rewrite bind_run, (clear_history_occ_run _ _ _ hd).
  - reflexivity.
  - cbn [heap with_heap]. apply lookup_chain_write;
      [solve_not_in|solve_names|done].
  - cbn [heap with_heap]. by apply write_allocated.
Qed.

Lemma isolate_enter_unrecognized_run (C : collaborators) (r : runner)
    (s : state) :
  recognized_in (heap s) r = Ok false → isolate_enter C r s = (Ok unbound, s).
Proof.
  intros Hrec. unfold isolate_enter.
  by rewrite bind_run, recognized_run, Hrec.
Qed.

Lemma isolate_exit_unrecognized_run (C : collaborators) (r : runner)
    (loc : locals) (s : state) :
  recognized_in (heap s) r = Ok false → isolate_exit C r loc s = (Ok tt, s).
Proof.
  intros Hrec. unfold isolate_exit.
  by rewrite bind_run, recognized_run, Hrec.
Qed.

(** Exit, parallel model, snapshot taken: the four copies go back to the
    primary head, then the shadow's [history_occ] is set to [None]. *)
Lemma isolate_exit_parallel_run (C : collaborators) (r : runner) (s : state)
    (hd ehd : positive) (t1 t2 t3 t4 : list Z) :
  recognized_in (heap s) r = Ok true →
  is_parallel_in C (heap s) (model r) = Ok true →
  lookup_chain (heap s) (model r) primary_head = Ok (PRef hd) →
  lookup_chain (heap s) (ema_model r) shadow_head = Ok (PRef ehd) →
  is_Some (heap s !! hd) →
  is_Some (heap s !! ehd) →
  isolate_exit C r
      (Locals (Some (PTensor t1)) (Some (PTensor t2)) (Some (PTensor t3))
              (Some (PTensor t4))) s =
    (Ok tt,
     with_heap s
       (write ehd "history_occ" PNone
          (write hd "history_sweep_time" (PTensor t4)
             (write hd "history_forward_augs" (PTensor t3)
                (write hd "history_seq_ids" (PTensor t2)
                   (write hd "history_occ" (PTensor t1) (heap s))))))).
Proof.
  intros Hrec Hpar Hhd Hehd Ha Hea. unfold isolate_exit.
  rewrite bind_run, recognized_run, Hrec.
  rewrite bind_run, is_parallel_run, Hpar.
  cbn [history_occ history_seq_ids history_forward_augs history_sweep_time
       read_local].
  rewrite bind_run. cbn [mret M_ret is_None negb].
  rewrite bind_run.
  erewrite (bind_ok (restore _ _ _)) by (by apply (restore_run _ _ _ _ hd)).
  erewrite (bind_ok (restore _ _ _)); cycle 1.
  { apply (restore_run _ _ _ _ hd); cbn [heap with_heap];
      [apply lookup_chain_write; [solve_not_in|solve_names|done]
      |by rewrite !write_allocated]. }
  erewrite (bind_ok (restore _ _ _)); cycle 1.
  { apply (restore_run _ _ _ _ hd); cbn [heap with_heap];
      [repeat apply lookup_chain_write; try solve_not_in; try solve_names; done
      |by rewrite !write_allocated]. }
  rewrite (restore_run _ _ _ _ hd); cbn [heap with_heap]; cycle 1.
  { repeat apply lookup_chain_write; try solve_not_in; try solve_names; done. }
  { by rewrite !write_allocated. }
  rewrite (clear_history_occ_run _ _ _ ehd); cbn [heap with_heap].
  - reflexivity.
  - repeat apply lookup_chain_write; try solve_not_in; try solve_names; done.
  - by rewrite !write_allocated.
Qed.

(** Exit, parallel model, no snapshot: [history_occ] is set to [None] on
    both heads. *)
Lemma isolate_exit_parallel_none_run (C : collaborators) (r : runner)
    (s : state) (hd ehd : positive) (l2 l3 l4 : option pyval) :
  recognized_in (heap s) r = Ok true →
  is_parallel_in C (heap s) (model r) = Ok true →
  lookup_chain (heap s) (model r) primary_head = Ok (PRef hd) →
  lookup_chain (heap s) (ema_model r) shadow_head = Ok (PRef ehd) →
  is_Some (heap s !! hd) →
  is_Some (heap s !! ehd) →
  isolate_exit C r (Locals (Some PNone) l2 l3 l4) s =
    (Ok tt,
     with_heap s (write ehd "history_occ" PNone
                    (write hd "history_occ" PNone (heap s)))).
Proof.
  intros Hrec Hpar Hhd Hehd Ha Hea. unfold isolate_exit.
  rewrite bind_run, recognized_run, Hrec.
  rewrite bind_run, is_parallel_run, Hpar.
  cbn [history_occ read_local].
  rewrite bind_run. cbn [mret M_ret is_None negb].
  rewrite bind_run, (clear_history_occ_run _ _ s hd Hhd Ha).
  rewrite (clear_history_occ_run _ _ _ ehd); cbn [heap with_heap].
  - reflexivity.
  - apply lookup_chain_write; [solve_not_in|solve_names|done].
  - by apply write_allocated.
Qed.

(** Exit, model not parallel: [history_occ] is set to [None] on both
    heads, whatever the locals. *)
Lemma isolate_exit_serial_run (C : collaborators) (r : runner) (s : state)
    (loc : locals) (hd ehd : positive) :
  recognized_in (heap s) r = Ok true →
  is_parallel_in C (heap s) (model r) = Ok false →
  lookup_chain (heap s) (model r) ["pts_bbox_head"] = Ok (PRef hd) →
  lookup_chain (heap s) (ema_model r) ["ema_model"; "pts_bbox_head"]
    = Ok (PRef ehd) →
  is_Some (heap s !! hd) →
  is_Some (heap s !! ehd) →
  isolate_exit C r loc s =
    (Ok tt,
     with_heap s (write ehd "history_occ" PNone
                    (write hd "history_occ" PNone (heap s)))).
Proof.
  intros Hrec Hpar Hhd Hehd Ha Hea. unfold isolate_exit.
  rewrite bind_run, recognized_run, Hrec.
  rewrite bind_run, is_parallel_run, Hpar.
  rewrite bind_run, (clear_history_occ_run _ _ s hd Hhd Ha).
  rewrite (clear_history_occ_run _ _ _ ehd); cbn [heap with_heap].
  - reflexivity.
  - apply lookup_chain_write; [solve_not_in|solve_names|done].
  - by apply write_allocated.
Qed.

(** The routine, phase by phase. *)
Lemma do_evaluate_run (C : collaborators) (self : hook) (r : runner)
    (s : state) :
  _do_evaluate C self r s =
    match isolate_enter C r s with
    | (Ok loc, s1) =>
        match sync_bn C self r s1 with
        | (Ok _, s2) =>
            if _should_evaluate C self r then
              match evaluation_pass C self r s2 with
              | (Ok _, s3) => isolate_exit C r loc s3
              | (Error e, s3) => (Error e, s3)
              end
            else (Ok tt, s2)
        | (Error e, s2) => (Error e, s2)
        end
    | (Error e, s1) => (Error e, s1)
    end.
Proof.
  unfold _do_evaluate. rewrite bind_run.
  destruct (isolate_enter C r s) as [[loc|e] s1]; [|done].
  rewrite bind_run. destruct (sync_bn C self r s1) as [[[]|e] s2]; [|done].
  destruct (_should_evaluate C self r); cbn [negb]; [|done].
  by rewrite bind_run.
Qed.

(** ** The concrete collaborators *)

Lemma quiet_keeps {A : Type} (keys : list string) (a : A) :
  effect_keeps keys (quiet a).
Proof. intros h. simpl. reflexivity. Qed.

Lemma failing_keeps {A : Type} (keys : list string) (msg : string) :
  effect_keeps keys (@failing A msg).
Proof. intros h. simpl. reflexivity. Qed.

Lemma forward_pass_keeps : effect_keeps skeleton forward_pass.
Proof.
  intros h. simpl. etrans; apply keeps_write; solve_not_in.
Qed.

Lemma scene_respects (keys : list string) (trigger : bool)
    (test : effect pyval) (score : pyval) :
  effect_keeps keys test →
  respects keys (scene trigger no_traffic test score).
Proof.
  intros Ht. split; intros; cbn [scene dist_broadcast multi_gpu_test evaluate
                                  _save_ckpt no_traffic];
    first [done | apply quiet_keeps].
Qed.

(** ** Recognition *)

Lemma recognized_in_unfold (h : gmap positive obj) (r : runner) (m : pyval)
    (name : string) :
  lookup_attr h (model r) "module" = Ok m →
  class_of h m = Ok name →
  recognized_in h r =
    if String.eqb name "TemporalOcc" then
      lookup_chain h m ["pts_bbox_head"; "use_history_flag"]
        ≫= λ flag, truthy (eq_True flag)
    else Ok false.
Proof.
  intros Hm Hc. unfold recognized_in, primary_head.
  cbn [lookup_chain app]. rewrite Hm. cbn [mbind res_bind mret res_ret].
  rewrite Hc. cbn [mbind res_bind]. by destruct (String.eqb name _).
Qed.

(** C7, as stated, fails: a model handed over without its wrapper has no
    [.module], and the first attribute access of the isolation step raises
    AttributeError out of [_do_evaluate]. *)
Lemma bare_model_raises :
  isolate_enter (scene true no_traffic forward_pass (PInt 37)) bare_runner
                start = (Error (AttributeError "module"), start) ∧
  (_do_evaluate (scene true no_traffic forward_pass (PInt 37)) example_hook
                bare_runner start).1 = Error (AttributeError "module").
Proof. split; reflexivity. Qed.

(** C7, amended: the isolation step is skipped as a no-op, on entry and on
    exit, for every model that has a [.module] whose class is not
    TemporalOcc, or is TemporalOcc with a [pts_bbox_head.use_history_flag]
    that is not equal to True; a model without [.module] is not skipped:
    the attribute error leaves the step. *)
Theorem unrecognized_model_is_skipped (C : collaborators) (r : runner)
    (s : state) :
  (∀ m name,
     lookup_attr (heap s) (model r) "module" = Ok m →
     class_of (heap s) m = Ok name →
     (name ≠ "TemporalOcc" ∨
      ∃ flag, lookup_chain (heap s) m ["pts_bbox_head"; "use_history_flag"]
                = Ok flag ∧ truthy (eq_True flag) = Ok false) →
     isolate_enter C r s = (Ok unbound, s) ∧
     ∀ loc, isolate_exit C r loc s = (Ok tt, s)) ∧
  (∀ e, lookup_attr (heap s) (model r) "module" = Error e →
        isolate_enter C r s = (Error e, s) ∧
        ∀ loc, isolate_exit C r loc s = (Error e, s)).
Proof.
  split.
  - intros m name Hm Hc Hwhy.
    assert (recognized_in (heap s) r = Ok false) as Hrec.
    { rewrite (recognized_in_unfold _ _ m name Hm Hc).
      destruct Hwhy as [Hne|(flag & Hflag & Hfalse)].
      - apply String.eqb_neq in Hne. by rewrite Hne.
      - destruct (String.eqb name _); [|done].
        rewrite Hflag. cbn [mbind res_bind]. done. }
    split; [by apply isolate_enter_unrecognized_run|].
    intros loc. by apply isolate_exit_unrecognized_run.
  - intros e He.
    assert (recognized_in (heap s) r = Error e) as Hrec.
    { unfold recognized_in. cbn [lookup_chain]. by rewrite He. }
    split; [|intros loc]; unfold isolate_enter, isolate_exit;
      by rewrite bind_run, recognized_run, Hrec.
Qed.

Lemma unrecognized_model_is_skipped_witness :
  lookup_attr (heap start) (model other_family_runner) "module"
    = Ok (PRef 10) ∧
  class_of (heap start) (PRef 10) = Ok "BEVDet" ∧
  isolate_enter (scene true no_traffic forward_pass (PInt 37))
                other_family_runner start = (Ok unbound, start).
Proof.
  split; [reflexivity|]. split; [reflexivity|].
  apply (unrecognized_model_is_skipped
           (scene true no_traffic forward_pass (PInt 37))
           other_family_runner start) with (m := PRef 10) (name := "BEVDet");
    [reflexivity|reflexivity|left; discriminate].
Defined.

(** ** Entry: what is cleared *)

Lemma lookup_after_two_writes (a b c : positive) (name : string) (x : pyval)
    (h : gmap positive obj) :
  is_Some (h !! c) → c = a ∨ c = b →
  lookup_attr (write a name x (write b name x h)) (PRef c) name = Ok x.
Proof.
  intros Hc Hor. destruct (decide (c = a)) as [->|Hne].
  - apply lookup_attr_write_eq. by apply write_allocated.
  - destruct Hor as [->| ->]; [done|].
    rewrite lookup_attr_write_ne by (left; congruence).
    by apply lookup_attr_write_eq.
Qed.

Lemma lookup_other_after_two_writes (a b : positive) (name : string)
    (x : pyval) (h : gmap positive obj) (v : pyval) (name' : string) :
  name' ≠ name →
  lookup_attr (write a name x (write b name x h)) v name'
    = lookup_attr h v name'.
Proof. intros Hne. by rewrite !lookup_attr_write_ne by (by right). Qed.

(** C6, as stated, fails: after the entry step the sequence ids, the
    forward augmentations and the sweep times of both heads are the
    tensors they were; only [history_occ] is [None]. *)
Lemma entry_keeps_three_buffers :
  let s1 := (isolate_enter (scene true no_traffic forward_pass (PInt 37))
                           (on_rank 0) start).2 in
  lookup_attr (heap s1) (PRef 3) "history_occ" = Ok PNone ∧
  lookup_attr (heap s1) (PRef 3) "history_seq_ids" = Ok (PTensor [3]) ∧
  lookup_attr (heap s1) (PRef 3) "history_forward_augs" = Ok (PTensor [4; 5]) ∧
  lookup_attr (heap s1) (PRef 3) "history_sweep_time" = Ok (PTensor [6]) ∧
  lookup_attr (heap s1) (PRef 7) "history_seq_ids" = Ok (PTensor [9]).
Proof. repeat split; reflexivity. Qed.

(** C6, amended: on entry, for a recognized model whose heads exist (and,
    when the model is parallel, whose primary history is either absent or
    four tensors), [history_occ] - the occupancy state - is set to [None]
    on both the primary and the shadow head, whether or not a snapshot was
    taken; no other attribute of any object changes, so the sequence ids,
    the forward augmentations and the sweep times stay as they were. *)
Theorem entry_clears_history_occ (C : collaborators) (r : runner) (s : state)
    (par : bool) (hd ehd : positive) :
  recognized_in (heap s) r = Ok true →
  is_parallel_in C (heap s) (model r) = Ok par →
  lookup_chain (heap s) (model r)
    (if par then primary_head else ["pts_bbox_head"]) = Ok (PRef hd) →
  lookup_chain (heap s) (ema_model r)
    (if par then shadow_head else ["ema_model"; "pts_bbox_head"])
    = Ok (PRef ehd) →
  is_Some (heap s !! hd) →
  is_Some (heap s !! ehd) →
  (par = true →
   lookup_attr (heap s) (PRef hd) "history_occ" = Ok PNone ∨
   ∃ t1 t2 t3 t4,
     lookup_attr (heap s) (PRef hd) "history_occ" = Ok (PTensor t1) ∧
     lookup_attr (heap s) (PRef hd) "history_seq_ids" = Ok (PTensor t2) ∧
     lookup_attr (heap s) (PRef hd) "history_forward_augs" = Ok (PTensor t3) ∧
     lookup_attr (heap s) (PRef hd) "history_sweep_time" = Ok (PTensor t4)) →
  ∃ loc s1,
    isolate_enter C r s = (Ok loc, s1) ∧
    lookup_attr (heap s1) (PRef hd) "history_occ" = Ok PNone ∧
    lookup_attr (heap s1) (PRef ehd) "history_occ" = Ok PNone ∧
    (∀ v name, name ≠ "history_occ" →
               lookup_attr (heap s1) v name = lookup_attr (heap s) v name) ∧
    trace s1 = trace s.
Proof.
  intros Hrec Hpar Hhd Hehd Ha Hea Hhist. destruct par.
  - destruct (Hhist eq_refl) as [Hnone|(t1 & t2 & t3 & t4 & H1 & H2 & H3 & H4)].
    + eexists _, _. split;
        [by apply (isolate_enter_parallel_none_run C r s hd ehd)|].
      cbn [heap with_heap trace].
      split; [apply lookup_after_two_writes; auto|].
      split; [apply lookup_after_two_writes; auto|].
      split; [|done]. intros v name Hne.
      by apply lookup_other_after_two_writes.
    + eexists _, _. split;
        [by apply (isolate_enter_parallel_run C r s hd ehd t1 t2 t3 t4)|].
      cbn [heap with_heap trace].
      split; [apply lookup_after_two_writes; auto|].
      split; [apply lookup_after_two_writes; auto|].
      split; [|done]. intros v name Hne.
      by apply lookup_other_after_two_writes.
  - eexists _, _. split; [by apply (isolate_enter_serial_run C r s hd ehd)|].
    cbn [heap with_heap trace].
    split; [apply lookup_after_two_writes; auto|].
    split; [apply lookup_after_two_writes; auto|].
    split; [|done]. intros v name Hne.
    by apply lookup_other_after_two_writes.
Qed.

Lemma entry_clears_history_occ_witness :
  ∃ loc s1,
    isolate_enter (scene true no_traffic forward_pass (PInt 37)) (on_rank 0)
                  start = (Ok loc, s1) ∧
    lookup_attr (heap s1) (PRef 3) "history_occ" = Ok PNone ∧
    lookup_attr (heap s1) (PRef 7) "history_occ" = Ok PNone.
Proof.
  destruct (entry_clears_history_occ
              (scene true no_traffic forward_pass (PInt 37)) (on_rank 0)
              start true 3 7)
    as (loc & s1 & Hrun & H3 & H7 & _);
    [reflexivity | reflexivity | reflexivity | reflexivity
    | by vm_compute; eauto | by vm_compute; eauto | |].
  - intros _. right. exists [1; 2], [3], [4; 5], [6].
    repeat split; reflexivity.
  - exists loc, s1. auto.
Defined.

(** ** The normal exit: what is restored *)

Lemma phases_keep (keys : list string) (C : collaborators) (self : hook)
    (r : runner) (s1 s2 s3 : state) (y z : res unit) :
  respects keys C →
  sync_bn C self r s1 = (y, s2) →
  evaluation_pass C self r s2 = (z, s3) →
  keeps keys (heap s1) (heap s3).
Proof.
  intros HC Hsync Hpass.
  pose proof (sync_bn_keeps keys C self r (respects_broadcast _ _ HC) s1) as K1.
  pose proof (evaluation_pass_keeps keys C self r HC s2) as K2.
  unfold heap_keeps in *. rewrite Hsync in K1. rewrite Hpass in K2.
  by etrans.
Qed.

(** C5, as stated, fails: after a completed evaluation the shadow head
    still holds its sequence ids, forward augmentations and sweep times;
    the hook only sets its [history_occ] to [None]. *)
Lemma shadow_buffers_not_emptied :
  let out := _do_evaluate (scene true no_traffic (quiet (PList [])) (PInt 37))
                          example_hook (on_rank 0) start in
  out.1 = Ok tt ∧
  lookup_attr (heap out.2) (PRef 7) "history_occ" = Ok PNone ∧
  lookup_attr (heap out.2) (PRef 7) "history_seq_ids" = Ok (PTensor [9]) ∧
  lookup_attr (heap out.2) (PRef 7) "history_forward_augs" = Ok (PTensor [8]) ∧
  lookup_attr (heap out.2) (PRef 7) "history_sweep_time" = Ok (PTensor [7]).
Proof. repeat split; reflexivity. Qed.

(** C5, amended: for a recognized parallel model whose primary head holds
    four history tensors and whose shadow head is another object, with
    collaborators that leave the object graph in shape, whenever the
    evaluation is triggered and [_do_evaluate] returns normally, the
    primary head's four history buffers hold their pre-call contents again
    and the shadow head's [history_occ] is [None]; nothing is said of the
    shadow head's other three buffers, which the hook never assigns. *)
Theorem evaluation_restores_primary (C : collaborators) (self : hook)
    (r : runner) (s s' : state) (hd ehd : positive) (t1 t2 t3 t4 : list Z) :
  respects skeleton C →
  recognized_in (heap s) r = Ok true →
  is_parallel_in C (heap s) (model r) = Ok true →
  lookup_chain (heap s) (model r) primary_head = Ok (PRef hd) →
  lookup_chain (heap s) (ema_model r) shadow_head = Ok (PRef ehd) →
  hd ≠ ehd →
  is_Some (heap s !! ehd) →
  lookup_attr (heap s) (PRef hd) "history_occ" = Ok (PTensor t1) →
  lookup_attr (heap s) (PRef hd) "history_seq_ids" = Ok (PTensor t2) →
  lookup_attr (heap s) (PRef hd) "history_forward_augs" = Ok (PTensor t3) →
  lookup_attr (heap s) (PRef hd) "history_sweep_time" = Ok (PTensor t4) →
  _should_evaluate C self r = true →
  _do_evaluate C self r s = (Ok tt, s') →
  lookup_attr (heap s') (PRef hd) "history_occ" = Ok (PTensor t1) ∧
  lookup_attr (heap s') (PRef hd) "history_seq_ids" = Ok (PTensor t2) ∧
  lookup_attr (heap s') (PRef hd) "history_forward_augs" = Ok (PTensor t3) ∧
  lookup_attr (heap s') (PRef hd) "history_sweep_time" = Ok (PTensor t4) ∧
  lookup_attr (heap s') (PRef ehd) "history_occ" = Ok PNone.
Proof.
  intros HC Hrec Hpar Hhd Hehd Hne Hea H1 H2 H3 H4 Htrig Hrun.
  pose proof (lookup_attr_allocated _ _ _ _ H1) as Ha.
  rewrite do_evaluate_run in Hrun.
  pose proof (isolate_enter_keeps C r s) as K0. unfold heap_keeps in K0.
  rewrite (isolate_enter_parallel_run C r s hd ehd t1 t2 t3 t4) in Hrun, K0
    by done.
  cbn [snd] in K0.
  destruct (sync_bn C self r _) as [[[]|e] s2] eqn:Hsync; [|done].
  rewrite Htrig in Hrun.
  destruct (evaluation_pass C self r s2) as [[[]|e] s3] eqn:Hpass; [|done].
  assert (keeps skeleton (heap s) (heap s3)) as K.
  { etrans; [exact K0|]. by eapply phases_keep. }
  rewrite (isolate_exit_parallel_run C r s3 hd ehd t1 t2 t3 t4) in Hrun.
  - injection Hrun as <-. cbn [heap with_heap].
    assert (is_Some (heap s3 !! hd)) as Ha3 by (by eapply keeps_allocated).
    assert (is_Some (heap s3 !! ehd)) as Hea3 by (by eapply keeps_allocated).
    repeat split.
    + rewrite !lookup_attr_write_ne by (first [by right | left; congruence]).
      by apply lookup_attr_write_eq.
    + rewrite !(lookup_attr_write_ne _ "history_occ"),
        !(lookup_attr_write_ne _ "history_sweep_time"),
        !(lookup_attr_write_ne _ "history_forward_augs")
        by (first [by right | left; congruence]).
      apply lookup_attr_write_eq. by rewrite !write_allocated.
    + rewrite !(lookup_attr_write_ne _ "history_occ"),
        !(lookup_attr_write_ne _ "history_sweep_time")
        by (first [by right | left; congruence]).
      apply lookup_attr_write_eq. by rewrite !write_allocated.
    + rewrite !(lookup_attr_write_ne _ "history_occ")
        by (first [by right | left; congruence]).
      apply lookup_attr_write_eq. by rewrite !write_allocated.
    + apply lookup_attr_write_eq. by rewrite !write_allocated.
  - by eapply keeps_recognized.
  - by eapply keeps_is_parallel.
  - eapply keeps_lookup_chain; [exact K|solve_names|done].
  - eapply keeps_lookup_chain; [exact K|solve_names|done].
  - by eapply keeps_allocated.
  - by eapply keeps_allocated.
Qed.

Lemma evaluation_restores_primary_witness :
  let out := _do_evaluate (scene true no_traffic forward_pass (PInt 37))
                          example_hook (on_rank 0) start in
  out.1 = Ok tt ∧
  lookup_attr (heap out.2) (PRef 3) "history_occ" = Ok (PTensor [1; 2]) ∧
  lookup_attr (heap out.2) (PRef 3) "history_seq_ids" = Ok (PTensor [3]) ∧
  lookup_attr (heap out.2) (PRef 3) "history_forward_augs"
    = Ok (PTensor [4; 5]) ∧
  lookup_attr (heap out.2) (PRef 3) "history_sweep_time" = Ok (PTensor [6]) ∧
  lookup_attr (heap out.2) (PRef 7) "history_occ" = Ok PNone.
Proof.
  intros out. split; [vm_compute; reflexivity|].
  apply (evaluation_restores_primary
           (scene true no_traffic forward_pass (PInt 37)) example_hook
           (on_rank 0) start out.2 3 7 [1; 2] [3] [4; 5] [6]).
  - apply scene_respects, forward_pass_keeps.
  - vm_compute; reflexivity.
  - vm_compute; reflexivity.
  - vm_compute; reflexivity.
  - vm_compute; reflexivity.
  - discriminate.
  - by vm_compute; eauto.
  - vm_compute; reflexivity.
  - vm_compute; reflexivity.
  - vm_compute; reflexivity.
  - vm_compute; reflexivity.
  - vm_compute; reflexivity.
  - vm_compute; reflexivity.
Defined.

(** ** The failing exit *)

(** C1, as stated, fails: when the test runner raises, the exception
    leaves [_do_evaluate] and the primary head's [history_occ], a tensor
    before the call, is [None] after it; nothing was restored. *)
Lemma failing_test_leaves_history_cleared :
  let out := _do_evaluate (scene true no_traffic (failing "test") (PInt 37))
                          example_hook (on_rank 0) start in
  lookup_attr (heap start) (PRef 3) "history_occ" = Ok (PTensor [1; 2]) ∧
  out.1 = Error (CollaboratorError "test") ∧
  lookup_attr (heap out.2) (PRef 3) "history_occ" = Ok PNone.
Proof. repeat split; reflexivity. Qed.

(** C1, amended: if the evaluation pass raises, the exception propagates
    to the caller and [_do_evaluate] ends in the very state in which the
    pass raised: the restoration does not run on that exit path.  For a
    recognized parallel model with a captured snapshot, and collaborators
    that do not assign [history_occ], the primary head's [history_occ] is
    therefore [None] when the exception leaves [_do_evaluate]. *)
Theorem failing_pass_skips_restore (C : collaborators) (self : hook)
    (r : runner) (s s2 s3 : state) (hd ehd : positive)
    (t1 t2 t3 t4 : list Z) (e : exn) :
  respects ["history_occ"] C →
  recognized_in (heap s) r = Ok true →
  is_parallel_in C (heap s) (model r) = Ok true →
  lookup_chain (heap s) (model r) primary_head = Ok (PRef hd) →
  lookup_chain (heap s) (ema_model r) shadow_head = Ok (PRef ehd) →
  is_Some (heap s !! ehd) →
  lookup_attr (heap s) (PRef hd) "history_occ" = Ok (PTensor t1) →
  lookup_attr (heap s) (PRef hd) "history_seq_ids" = Ok (PTensor t2) →
  lookup_attr (heap s) (PRef hd) "history_forward_augs" = Ok (PTensor t3) →
  lookup_attr (heap s) (PRef hd) "history_sweep_time" = Ok (PTensor t4) →
  _should_evaluate C self r = true →
  sync_bn C self r (isolate_enter C r s).2 = (Ok tt, s2) →
  evaluation_pass C self r s2 = (Error e, s3) →
  _do_evaluate C self r s = (Error e, s3) ∧
  lookup_attr (heap s3) (PRef hd) "history_occ" = Ok PNone.
Proof.
  intros HC Hrec Hpar Hhd Hehd Hea H1 H2 H3 H4 Htrig Hsync Hpass.
  pose proof (lookup_attr_allocated _ _ _ _ H1) as Ha.
  rewrite do_evaluate_run.
  rewrite (isolate_enter_parallel_run C r s hd ehd t1 t2 t3 t4) in Hsync |- *
    by done.
  cbn [snd] in Hsync. rewrite Hsync, Htrig, Hpass. split; [done|].
  eapply (keeps_lookup_attr ["history_occ"]).
  - by eapply phases_keep.
  - repeat constructor.
  - cbn [heap with_heap]. apply lookup_after_two_writes; auto.
Qed.

Lemma failing_pass_skips_restore_witness :
  let out := _do_evaluate (scene true no_traffic (failing "test") (PInt 37))
                          example_hook (on_rank 0) start in
  out.1 = Error (CollaboratorError "test") ∧
  lookup_attr (heap out.2) (PRef 3) "history_occ" = Ok PNone.
Proof.
  intros out.
  destruct (failing_pass_skips_restore
              (scene true no_traffic (failing "test") (PInt 37)) example_hook
              (on_rank 0) start
              (isolate_enter (scene true no_traffic (failing "test") (PInt 37))
                             (on_rank 0) start).2
              out.2 3 7 [1; 2] [3] [4; 5] [6] (CollaboratorError "test"))
    as [Hrun Hocc].
  - apply scene_respects, failing_keeps.
  - vm_compute; reflexivity.
  - vm_compute; reflexivity.
  - vm_compute; reflexivity.
  - vm_compute; reflexivity.
  - by vm_compute; eauto.
  - vm_compute; reflexivity.
  - vm_compute; reflexivity.
  - vm_compute; reflexivity.
  - vm_compute; reflexivity.
  - vm_compute; reflexivity.
  - vm_compute; reflexivity.
  - vm_compute; reflexivity.
  - split; [|exact Hocc]. unfold out. by rewrite Hrun.
Defined.

(** ** The model that is not parallel *)

(** C10: for a recognized model that is not parallel, whose heads exist,
    with collaborators that leave the object graph in shape and a
    broadcast that does not assign [history_occ], no snapshot is taken (no
    local is bound on entry) and, whenever [_do_evaluate] returns
    normally, [history_occ] is [None] on the primary head and on the
    shadow head, whatever they held before: the primary history is not
    restored. *)
Theorem serial_model_history_not_restored (C : collaborators) (self : hook)
    (r : runner) (s s' : state) (hd ehd : positive) :
  respects skeleton C →
  (∀ m n z, effect_keeps ["history_occ"] (dist_broadcast C m n z)) →
  recognized_in (heap s) r = Ok true →
  is_parallel_in C (heap s) (model r) = Ok false →
  lookup_chain (heap s) (model r) ["pts_bbox_head"] = Ok (PRef hd) →
  lookup_chain (heap s) (ema_model r) ["ema_model"; "pts_bbox_head"]
    = Ok (PRef ehd) →
  is_Some (heap s !! hd) →
  is_Some (heap s !! ehd) →
  _do_evaluate C self r s = (Ok tt, s') →
  (isolate_enter C r s).1 = Ok unbound ∧
  lookup_attr (heap s') (PRef hd) "history_occ" = Ok PNone ∧
  lookup_attr (heap s') (PRef ehd) "history_occ" = Ok PNone.
Proof.
  intros HC Hbc Hrec Hpar Hhd Hehd Ha Hea Hrun.
  rewrite do_evaluate_run in Hrun.
  pose proof (isolate_enter_keeps C r s) as K0. unfold heap_keeps in K0.
  rewrite (isolate_enter_serial_run C r s hd ehd) in Hrun, K0 |- * by done.
  cbn [fst snd] in *. split; [done|].
  destruct (sync_bn C self r _) as [[[]|e] s2] eqn:Hsync; [|done].
  destruct (_should_evaluate C self r).
  - destruct (evaluation_pass C self r s2) as [[[]|e] s3] eqn:Hpass; [|done].
    assert (keeps skeleton (heap s) (heap s3)) as K.
    { etrans; [exact K0|]. by eapply phases_keep. }
    rewrite (isolate_exit_serial_run C r s3 _ hd ehd) in Hrun.
    + injection Hrun as <-. cbn [heap with_heap].
      assert (is_Some (heap s3 !! hd)) by (by eapply keeps_allocated).
      assert (is_Some (heap s3 !! ehd)) by (by eapply keeps_allocated).
      split; apply lookup_after_two_writes; auto.
    + by eapply keeps_recognized.
    + by eapply keeps_is_parallel.
    + eapply keeps_lookup_chain; [exact K|solve_names|done].
    + eapply keeps_lookup_chain; [exact K|solve_names|done].
    + by eapply keeps_allocated.
    + by eapply keeps_allocated.
  - injection Hrun as <-.
    pose proof (sync_bn_keeps ["history_occ"] C self r Hbc) as K1.
    unfold steps, heap_keeps in K1.
    match type of Hsync with
    | sync_bn _ _ _ ?s1 = _ => specialize (K1 s1)
    end.
    rewrite Hsync in K1.
    cbn [snd heap with_heap] in K1.
    split; (eapply (keeps_lookup_attr ["history_occ"]);
            [exact K1|repeat constructor|]);
      apply lookup_after_two_writes; auto.
Qed.

Lemma serial_model_history_not_restored_witness :
  let out := _do_evaluate (scene true no_traffic forward_pass (PInt 37))
                          example_hook serial_runner start in
  lookup_attr (heap start) (PRef 3) "history_occ" = Ok (PTensor [1; 2]) ∧
  out.1 = Ok tt ∧
  lookup_attr (heap out.2) (PRef 3) "history_occ" = Ok PNone ∧
  lookup_attr (heap out.2) (PRef 7) "history_occ" = Ok PNone.
Proof.
  intros out. split; [vm_compute; reflexivity|].
  split; [vm_compute; reflexivity|].
  apply (serial_model_history_not_restored
           (scene true no_traffic forward_pass (PInt 37)) example_hook
           serial_runner start out.2 3 7).
  - apply scene_respects, forward_pass_keeps.
  - intros m n z. apply quiet_keeps.
  - vm_compute; reflexivity.
  - vm_compute; reflexivity.
  - vm_compute; reflexivity.
  - vm_compute; reflexivity.
  - by vm_compute; eauto.
  - by vm_compute; eauto.
  - vm_compute; reflexivity.
Defined.

(** ** The skipped evaluation *)

#[global] Instance only_broadcasts_preorder : PreOrder only_broadcasts.
Proof.
  split.
  - intros s. split; [done|]. split; [done|]. exists [].
    by rewrite app_nil_r.
  - intros s1 s2 s3 (Hl1 & Ho1 & evs1 & Ht1 & Hb1) (Hl2 & Ho2 & evs2 & Ht2 & Hb2).
    split; [congruence|]. split; [congruence|]. exists (evs1 ++ evs2).
    split; [by rewrite Ht2, Ht1, app_assoc|].
    by rewrite forallb_app, Hb1, Hb2.
Qed.

Lemma with_heap_only_broadcasts (s : state) (h : gmap positive obj) :
  only_broadcasts s (with_heap s h).
Proof.
  split; [done|]. split; [done|]. exists []. by rewrite app_nil_r.
Qed.

Lemma setattr_only_broadcasts (v : pyval) (name : string) (x : pyval) :
  steps only_broadcasts (setattr v name x).
Proof.
  intros s. destruct (setattr_heap v name x s) as [->|(a & _ & ->)];
    [reflexivity|apply with_heap_only_broadcasts].
Qed.

Lemma perform_only_broadcasts {A : Type} (f : effect A) :
  steps only_broadcasts (perform f).
Proof.
  intros s. unfold perform. destruct (f (heap s)) as [x h'].
  apply with_heap_only_broadcasts.
Qed.

Lemma call_broadcast_only_broadcasts {A : Type} (buf : pyval) (src : Z)
    (f : effect A) :
  steps only_broadcasts (call (EBroadcast buf src) f).
Proof.
  apply (steps_bind only_broadcasts); [|intros _; apply perform_only_broadcasts].
  intros s. split; [done|]. split; [done|]. by exists [EBroadcast buf src].
Qed.

Lemma clear_history_occ_only_broadcasts (v : pyval) (path : list string) :
  steps only_broadcasts (clear_history_occ v path).
Proof.
  unfold clear_history_occ, chain. steps_structure.
  apply setattr_only_broadcasts.
Qed.

Lemma isolate_enter_only_broadcasts (C : collaborators) (r : runner) :
  steps only_broadcasts (isolate_enter C r).
Proof.
  unfold isolate_enter, recognized, is_parallel, snapshot, chain.
  steps_structure; apply clear_history_occ_only_broadcasts.
Qed.

Lemma broadcast_buffers_only_broadcasts (C : collaborators)
    (mods : list pyval) :
  steps only_broadcasts (broadcast_buffers C mods).
Proof.
  induction mods as [|m mods IH]; cbn [broadcast_buffers];
    unfold getattr, class_name; steps_structure;
    try apply call_broadcast_only_broadcasts; auto.
Qed.

Lemma sync_bn_only_broadcasts (C : collaborators) (self : hook) (r : runner) :
  steps only_broadcasts (sync_bn C self r).
Proof.
  unfold sync_bn. steps_structure. apply broadcast_buffers_only_broadcasts.
Qed.

Lemma do_evaluate_skipped (C : collaborators) (self : hook) (r : runner)
    (s : state) :
  _should_evaluate C self r = false →
  _do_evaluate C self r s = (isolate_enter C r ≫= λ _, sync_bn C self r) s.
Proof.
  intros Htrig. rewrite do_evaluate_run, Htrig, bind_run.
  destruct (isolate_enter C r s) as [[loc|e] s1]; [|done].
  by destruct (sync_bn C self r s1) as [[[]|e] s2].
Qed.

Lemma isolate_enter_trace (C : collaborators) (r : runner) (s : state) :
  trace (isolate_enter C r s).2 = trace s.
Proof.
  assert (PreOrder (λ s0 s1 : state, trace s1 = trace s0)) as Hpre.
  { split; [done|]. intros s1 s2 s3 H12 H23. congruence. }
  assert (∀ v n x, steps (λ s0 s1 : state, trace s1 = trace s0)
                         (setattr v n x)) as Hset.
  { intros v n x s0.
    by destruct (setattr_heap v n x s0) as [->|(b & _ & ->)]. }
  assert (steps (λ s0 s1 : state, trace s1 = trace s0) (isolate_enter C r))
    as Hsteps; [|apply Hsteps].
  unfold isolate_enter, recognized, is_parallel, snapshot, clear_history_occ,
    chain.
  steps_structure; apply Hset.
Qed.

(** C2, as stated, fails: with [broadcast_bn_buffer] set, a call whose
    trigger is false has already asked for two collective broadcasts and
    overwritten the running statistics of the batch-norm layer when it
    returns. *)
Lemma skipped_call_has_broadcast :
  let out := _do_evaluate
               (scene false (receive rank0_stats) forward_pass (PInt 37))
               syncing_hook other_family_runner start in
  out.1 = Ok tt ∧
  trace out.2 = [EBroadcast (PTensor [5]) 0; EBroadcast (PTensor [6]) 0] ∧
  lookup_attr (heap start) (PRef 8) "running_var" = Ok (PTensor [5]) ∧
  lookup_attr (heap out.2) (PRef 8) "running_var" = Ok (PTensor [50]) ∧
  heap out.2 ≠ heap start.
Proof.
  repeat split; try reflexivity.
  intros Heq.
  assert (lookup_attr
            (heap (_do_evaluate
                     (scene false (receive rank0_stats) forward_pass (PInt 37))
                     syncing_hook other_family_runner start).2)
            (PRef 8) "running_var" = Ok (PTensor [50])) as H by reflexivity.
  rewrite Heq in H. vm_compute in H. discriminate.
Qed.

(** C2, amended: in every call in which the trigger returns false, the
    test runner, the metric and the checkpoint writer are never invoked,
    [latest_results] and the log output stay as they were, and the only
    collaborator calls are the batch-norm broadcasts issued before the
    trigger is checked (none when [broadcast_bn_buffer] is off); for a
    model that is not the recognized family and flag combination, with
    [broadcast_bn_buffer] off, the call returns normally and leaves the
    whole state unchanged. *)
Theorem skipped_call_only_broadcasts (C : collaborators) (self : hook)
    (r : runner) (s : state) :
  _should_evaluate C self r = false →
  only_broadcasts s (_do_evaluate C self r s).2 ∧
  (broadcast_bn_buffer self = false →
   trace (_do_evaluate C self r s).2 = trace s) ∧
  (broadcast_bn_buffer self = false →
   recognized_in (heap s) r = Ok false →
   _do_evaluate C self r s = (Ok tt, s)).
Proof.
  intros Htrig. rewrite (do_evaluate_skipped C self r s Htrig).
  split; [|split].
  - apply (steps_bind only_broadcasts);
      [apply isolate_enter_only_broadcasts|].
    intros _. apply sync_bn_only_broadcasts.
  - intros Hoff. rewrite bind_run.
    pose proof (isolate_enter_trace C r s) as Hsame.
    destruct (isolate_enter C r s) as [[loc|e] s1]; cbn [snd] in *; [|done].
    unfold sync_bn. by rewrite Hoff.
  - intros Hoff Hrec. rewrite bind_run.
    rewrite (isolate_enter_unrecognized_run C r s Hrec).
    unfold sync_bn. by rewrite Hoff.
Qed.

Lemma skipped_call_only_broadcasts_witness :
  let out := _do_evaluate
               (scene false (receive rank0_stats) forward_pass (PInt 37))
               syncing_hook other_family_runner start in
  latest_results out.2 = latest_results start ∧
  log_output out.2 = log_output start ∧
  ∃ evs, trace out.2 = trace start ++ evs ∧ forallb is_broadcast evs = true.
Proof.
  apply (skipped_call_only_broadcasts
           (scene false (receive rank0_stats) forward_pass (PInt 37))
           syncing_hook other_family_runner start).
  reflexivity.
Defined.

(** ** Saving the best checkpoint *)

(** Off the coordinating process nothing is scored or saved. *)
Lemma score_and_save_other_rank (C : collaborators) (self : hook)
    (r : runner) (results : pyval) (s : state) :
  rank r ≠ 0 → score_and_save C self r results s = (Ok tt, s).
Proof.
  intros Hrank. unfold score_and_save.
  destruct (Z.eqb_spec (rank r) 0); [done|reflexivity].
Qed.

(** X11: on the coordinating process, once the metric has returned, the
    events of the scoring step are the print, the metric and then the
    checkpoint writer, called once with the key score, exactly when
    [save_best] and the key score are both true in a condition; with
    [None], 0 or an empty value it is not called. *)
Lemma score_and_save_events (C : collaborators) (self : hook) (r : runner)
    (results key : pyval) (s : state) (h1 : gmap positive obj)
    (configured present : bool) :
  rank r = 0 →
  evaluate C r results (heap s) = (Ok key, h1) →
  truthy (save_best self) = Ok configured →
  truthy key = Ok present →
  trace (score_and_save C self r results s).2 =
    trace s ++ [EPrint the_newline; EEvaluate results] ++
    (if configured && present then [ESaveCkpt key] else []).
Proof.
  intros Hrank Heval Hconf Hpres. unfold score_and_save.
  rewrite Hrank. cbn [Z.eqb].
  cbv [mbind M_bind call emit perform set_log_output lift mret M_ret].
  cbn [heap trace with_heap]. rewrite Heval, Hconf.
  cbn [heap trace with_heap].
  destruct configured; cbn [andb].
  - rewrite Hpres. destruct present; cbn [heap trace with_heap].
    + destruct (_save_ckpt C r key h1) as [x h2]. cbn [trace with_heap snd].
      by rewrite <- !app_assoc.
    + cbn [snd trace]. by rewrite <- !app_assoc.
  - cbn [snd trace]. by rewrite <- !app_assoc.
Qed.

(** C8, at the failing input: on rank 0, with [save_best] configured and a
    key score of 0 - a score that is present - the evaluation completes
    and the checkpoint writer is never called, while the same run with the
    score 37 calls it once. *)
Theorem zero_score_is_not_saved :
  let zero := _do_evaluate (scene true no_traffic forward_pass (PInt 0))
                           example_hook (on_rank 0) start in
  let good := _do_evaluate (scene true no_traffic forward_pass (PInt 37))
                           example_hook (on_rank 0) start in
  zero.1 = Ok tt ∧
  trace zero.2 =
    [EMultiGpuTest (PRef 5) "work/.eval_hook" false; EPrint the_newline;
     EEvaluate (PList [PInt 1; PInt 0])] ∧
  trace good.2 =
    [EMultiGpuTest (PRef 5) "work/.eval_hook" false; EPrint the_newline;
     EEvaluate (PList [PInt 1; PInt 0]); ESaveCkpt (PInt 37)].
Proof. repeat split; reflexivity. Qed.

(** * Further properties of the interval policy *)

(** Whatever the list holds, the search ends inside its window. *)
Lemma bisect_loop_bounds (l : list Z) (x : Z) :
  ∀ fuel lo hi,
    (lo ≤ hi ≤ length l)%nat →
    (hi - lo ≤ fuel)%nat →
    ∃ k, bisect_loop fuel (map PInt l) x lo hi = Ok k ∧ (lo ≤ k ≤ hi)%nat.
Proof.
  induction fuel as [|fuel IH]; intros lo hi Hb Hf.
  - exists lo. rewrite bisect_loop_done by lia. split; [done|lia].
  - destruct (decide (lo < hi)%nat) as [Hlt|Hge].
    + set (mid := ((lo + hi) / 2)%nat).
      assert (lo ≤ mid < hi)%nat as Hmid.
      { subst mid. split.
        - apply Nat.div_le_lower_bound; lia.
        - apply Nat.Div0.div_lt_upper_bound; lia. }
      destruct (lookup_lt_is_Some_2 l mid) as [v Hv]; [lia|].
      rewrite (bisect_loop_step _ _ _ _ _ (PInt v)) by
        (try done; fold mid; by rewrite list_lookup_fmap, Hv).
      fold mid. cbn [int_lt mbind res_bind].
      destruct (x <? v).
      * destruct (IH lo mid) as (k & Hk & Hkb); [lia|lia|].
        exists k. split; [done|lia].
      * destruct (IH (mid + 1)%nat hi) as (k & Hk & Hkb); [lia|lia|].
        exists k. split; [done|lia].
    + exists lo. rewrite bisect_loop_done by lia. split; [done|lia].
Qed.

Lemma py_index_last {A : Type} (l : list A) (x : A) :
  last l = Some x → py_index l (-1) = Ok x.
Proof.
  intros Hlast. rewrite last_lookup in Hlast.
  pose proof (lookup_lt_Some _ _ _ Hlast) as Hlen.
  unfold py_index. cbn [Z.ltb Z.compare].
  destruct (Z.ltb_spec (-1 + Z.of_nat (length l)) 0); [lia|].
  destruct (Z.leb_spec (Z.of_nat (length l)) (-1 + Z.of_nat (length l)));
    [lia|].
  cbn [orb].
  replace (Z.to_nat (-1 + Z.of_nat (length l))) with (pred (length l)) by lia.
  by rewrite Hlast.
Qed.

(** X1: after a successful construction with dynamic intervals the two
    tables have the same length, one more than the number of configured
    entries, and start with milestone 0 and the base interval; the
    interval itself is still the base interval. *)
Theorem init_tables_aligned (base self : hook) (dyn : pyval) :
  dyn ≠ PNone →
  __init__ base dyn = Ok self →
  use_dynamic_intervals self = true ∧
  length (dynamic_milestones self) = S (length (items_of dyn)) ∧
  length (dynamic_intervals self) = S (length (items_of dyn)) ∧
  dynamic_milestones self !! 0%nat = Some (PInt 0) ∧
  dynamic_intervals self !! 0%nat = Some (interval base) ∧
  interval self = interval base.
Proof.
  intros Hdyn. rewrite init_checks_shape_only.
  destruct (is_None dyn) eqn:Hnone; [by destruct dyn|].
  destruct (negb (is_list_of_tuple dyn)); [done|].
  destruct (negb (well_shaped dyn)); [done|].
  intros [= <-]. cbn [set_dynamic use_dynamic_intervals dynamic_milestones
                       dynamic_intervals interval length].
  by rewrite !length_map.
Qed.

Lemma init_tables_aligned_witness :
  ∃ self,
    __init__ example_hook example_intervals = Ok self ∧
    length (dynamic_milestones self) = 3%nat ∧
    length (dynamic_intervals self) = 3%nat.
Proof.
  eexists. split; [vm_compute; reflexivity|].
  destruct (init_tables_aligned example_hook _ example_intervals
              ltac:(discriminate) eq_refl) as (_ & Hm & Hi & _).
  split; [exact Hm|exact Hi].
Defined.

(** X2: for a configuration of integer pairs, in any order, and any
    progress value, negative ones included, [_decide_interval] raises
    nothing, and the interval it sets is the base interval or one of the
    configured intervals. *)
Theorem resolve_total_on_pairs (base : hook) (dyn : list (Z * Z))
    (r : runner) :
  ∃ i, resolve base (pairs dyn) r = Ok i ∧
       i ∈ interval base :: map PInt dyn.*2.
Proof.
  destruct (bisect_loop_bounds (0 :: dyn.*1) (progress base r + 1)
              (length (0 :: dyn.*1)) 0 (length (0 :: dyn.*1)))
    as (k & Hk & Hkb); [lia|lia|].
  assert (selected_step base (pairs dyn) r = Ok k) as Hstep.
  { unfold selected_step. rewrite init_pairs.
    cbn [mbind res_bind set_dynamic dynamic_milestones].
    unfold bisect. rewrite length_map. exact Hk. }
  rewrite (resolve_by_step _ _ _ _ Hstep).
  cbn [length] in Hkb. rewrite length_fmap in Hkb.
  destruct k as [|k].
  - destruct (last (interval base :: map PInt dyn.*2)) as [x|] eqn:Hlast.
    + exists x. split; [by apply py_index_last|].
      rewrite last_lookup in Hlast. by eapply list_elem_of_lookup_2.
    + by rewrite last_cons in Hlast; destruct (last (map PInt dyn.*2)).
  - destruct (lookup_lt_is_Some_2 (interval base :: map PInt dyn.*2) k)
      as [x Hx]; [cbn [length]; rewrite !length_map; lia|].
    exists x. replace (Z.of_nat (S k) - 1) with (Z.of_nat k) by lia.
    split; [by apply py_index_lookup|by eapply list_elem_of_lookup_2].
Qed.

(** X3: [_decide_interval] changes nothing but the interval, and deciding
    again at the same progress gives the same hook; with dynamic intervals
    the result does not depend on the interval in force before. *)
Theorem decide_interval_idempotent (self self' : hook) (r : runner) :
  _decide_interval self r = Ok self' →
  _decide_interval self' r = Ok self' ∧
  (use_dynamic_intervals self = true →
   ∀ i, _decide_interval (set_interval self i) r = Ok self') ∧
  self' = set_interval self (interval self').
Proof.
  unfold _decide_interval, progress.
  destruct self as [iv be bn sb td gc dl use ms ivs].
  cbn [use_dynamic_intervals dynamic_milestones dynamic_intervals set_interval
       by_epoch broadcast_bn_buffer save_best tmpdir gpu_collect
       dataloader_len].
  destruct use.
  - destruct (bisect ms _) as [k|e] eqn:Hk; [|done]. cbn [mbind res_bind].
    destruct (py_index ivs _) as [i|e] eqn:Hi; [|done]. cbn [mbind res_bind].
    intros [= <-].
    cbn [use_dynamic_intervals dynamic_milestones dynamic_intervals interval
         by_epoch set_interval broadcast_bn_buffer save_best tmpdir
         gpu_collect dataloader_len].
    rewrite Hk. cbn [mbind res_bind]. rewrite Hi. done.
  - intros [= <-].
    cbn [use_dynamic_intervals interval set_interval by_epoch
         broadcast_bn_buffer save_best tmpdir gpu_collect dataloader_len
         dynamic_milestones dynamic_intervals].
    done.
Qed.

Lemma decide_interval_idempotent_witness :
  __init__ example_hook example_intervals = Ok example_configured ∧
  _decide_interval example_configured (at_epoch 12)
    = Ok (set_interval example_configured (PInt 2)) ∧
  _decide_interval (set_interval example_configured (PInt 2)) (at_epoch 12)
    = Ok (set_interval example_configured (PInt 2)).
Proof.
  split; [vm_compute; reflexivity|]. split; [vm_compute; reflexivity|].
  refine (proj1 (decide_interval_idempotent example_configured _
                   (at_epoch 12) _)).
  vm_compute; reflexivity.
Defined.

Lemma thresholds_nonnegative (l : list Z) (j : nat) (v : Z) :
  ascending (0 :: l) → (0 :: l) !! j = Some v → 0 ≤ v.
Proof. intros Hasc Hv. apply (Hasc 0%nat j 0 v eq_refl Hv). lia. Qed.

(** X4: with strictly increasing thresholds, the interval of a row
    [(m, i)] of the table is in force exactly from progress [m - 1] up to,
    and not including, the next row's milestone minus one; the last row
    holds for ever. *)
Theorem interval_between_milestones (base : hook) (b : Z)
    (dyn : list (Z * Z)) (r : runner) (k : nat) (m i : Z) :
  interval base = PInt b →
  StronglySorted Z.lt (0 :: dyn.*1) →
  ((0, b) :: dyn) !! k = Some (m, i) →
  m - 1 ≤ progress base r →
  (∀ m' i', ((0, b) :: dyn) !! S k = Some (m', i') →
            progress base r < m' - 1) →
  resolve base (pairs dyn) r = Ok (PInt i).
Proof.
  intros Hb Hsorted Hrow Hlo Hhi.
  pose proof (StronglySorted_le_ascending _ (StronglySorted_lt_le _ Hsorted))
    as Hasc.
  assert ((0 :: dyn.*1) !! k = Some m) as Hm.
  { change (0 :: dyn.*1) with (((0, b) :: dyn).*1).
    by rewrite list_lookup_fmap, Hrow. }
  pose proof (thresholds_nonnegative _ _ _ Hasc Hm) as Hm0.
  assert (-1 ≤ progress base r) as Hp by lia.
  destruct (resolve_selects base b dyn r Hb Hasc Hp)
    as (k' & m' & i' & _ & Hsp & Hrow' & Hres).
  assert (splits (0 :: dyn.*1) (progress base r + 1) (S k)) as Hsk.
  { split; [apply lookup_lt_Some in Hm; lia|]. split.
    - intros j v Hv Hj. assert (j ≤ k)%nat as Hjk by lia.
      pose proof (Hasc j k v m Hv Hm Hjk). lia.
    - intros j v Hv Hj.
      destruct (lookup_lt_is_Some_2 ((0, b) :: dyn) (S k)) as [[m2 i2] Hnext].
      { apply lookup_lt_Some in Hv. cbn [length] in *.
        rewrite length_fmap in Hv. lia. }
      specialize (Hhi m2 i2 Hnext).
      assert ((0 :: dyn.*1) !! S k = Some m2) as Hm2.
      { change (0 :: dyn.*1) with (((0, b) :: dyn).*1).
        by rewrite list_lookup_fmap, Hnext. }
      pose proof (Hasc (S k) j m2 v Hm2 Hv Hj). lia. }
  pose proof (splits_unique _ _ _ _ Hsp Hsk) as [= ->].
  rewrite Hrow in Hrow'. by simplify_eq.
Qed.

Lemma interval_between_milestones_witness :
  resolve example_hook (pairs [(10, 2); (20, 1)]) (at_epoch 12)
    = Ok (PInt 2).
Proof.
  apply (interval_between_milestones example_hook 5 [(10, 2); (20, 1)]
           (at_epoch 12) 1 10 2).
  - reflexivity.
  - solve_sorted.
  - reflexivity.
  - vm_compute; discriminate.
  - intros m' i' [= <- <-]. vm_compute; reflexivity.
Defined.

(** X5: a progress value below [-1] selects step 0, and Python's index
    [-1] then picks the last interval of the table. *)
Theorem negative_progress_selects_last (base : hook) (dyn : list (Z * Z))
    (r : runner) :
  StronglySorted Z.le (0 :: dyn.*1) →
  progress base r < -1 →
  selected_step base (pairs dyn) r = Ok 0%nat ∧
  resolve base (pairs dyn) r
    = Ok (default (interval base) (last (map PInt dyn.*2))).
Proof.
  intros Hsorted Hneg.
  pose proof (StronglySorted_le_ascending _ Hsorted) as Hasc.
  destruct (selected_step_splits base dyn r Hasc) as (k & Hk & Hsp).
  assert (splits (0 :: dyn.*1) (progress base r + 1) 0) as Hs0.
  { split; [lia|]. split; [intros; lia|].
    intros j v Hv _. pose proof (thresholds_nonnegative _ _ _ Hasc Hv). lia. }
  pose proof (splits_unique _ _ _ _ Hsp Hs0) as ->.
  split; [done|]. rewrite (resolve_by_step _ _ _ _ Hk).
  apply py_index_last. rewrite last_cons.
  by destruct (last (map PInt dyn.*2)).
Qed.

Lemma negative_progress_selects_last_witness :
  resolve example_hook (pairs [(10, 2); (20, 1)]) (at_epoch (-3))
    = Ok (PInt 1).
Proof.
  apply (negative_progress_selects_last example_hook [(10, 2); (20, 1)]
           (at_epoch (-3))).
  - solve_sorted.
  - vm_compute; reflexivity.
Defined.

(** X6: a configured milestone equal to the implicit 0 replaces the base
    interval from the start: for every progress of at least [-1] the
    selected step is at least 2, so the interval comes from the
    configured entries. *)
Theorem milestone_zero_overrides_base (base : hook) (i1 : Z)
    (rest : list (Z * Z)) (r : runner) :
  StronglySorted Z.le (0 :: 0 :: rest.*1) →
  -1 ≤ progress base r →
  ∃ k i,
    selected_step base (pairs ((0, i1) :: rest)) r = Ok (S (S k)) ∧
    ((0, i1) :: rest).*2 !! k = Some i ∧
    resolve base (pairs ((0, i1) :: rest)) r = Ok (PInt i).
Proof.
  intros Hsorted Hp.
  pose proof (StronglySorted_le_ascending _ Hsorted) as Hasc.
  destruct (selected_step_splits base ((0, i1) :: rest) r Hasc)
    as (k & Hk & Hlen & Hlo & Hhi).
  destruct k as [|[|k]].
  - specialize (Hhi 0%nat 0 eq_refl). lia.
  - specialize (Hhi 1%nat 0 eq_refl). lia.
  - cbn [length fmap list_fmap] in Hlen. rewrite length_fmap in Hlen.
    destruct (lookup_lt_is_Some_2 (((0, i1) :: rest).*2) k) as [i Hi].
    { rewrite length_fmap. cbn [length]. lia. }
    exists k, i. split; [done|]. split; [done|].
    rewrite (resolve_by_step _ _ _ _ Hk).
    replace (Z.of_nat (S (S k)) - 1) with (Z.of_nat (S k)) by lia.
    apply py_index_lookup.
    change (map PInt ((0, i1) :: rest).*2 !! k = Some (PInt i)).
    by rewrite list_lookup_fmap, Hi.
Qed.

Lemma milestone_zero_overrides_base_witness :
  resolve example_hook (pairs [(0, 3); (10, 2)]) (at_epoch 0) = Ok (PInt 3).
Proof.
  destruct (milestone_zero_overrides_base example_hook 3 [(10, 2)]
              (at_epoch 0)) as (k & i & Hstep & Hi & Hres).
  - solve_sorted.
  - vm_compute; discriminate.
  - rewrite Hres. vm_compute in Hstep.
    injection Hstep as <-. vm_compute in Hi. by injection Hi as <-.
Defined.



(** * Further properties of [_do_evaluate] *)

#[global] Instance writes_only_preorder (names : list string) :
  PreOrder (writes_only names).
Proof.
  split.
  - intros s. repeat split. intros a. by destruct (heap s !! a).
  - intros s1 s2 s3 (Hl1 & Ho1 & Ht1 & Hh1) (Hl2 & Ho2 & Ht2 & Hh2).
    split; [congruence|]. split; [congruence|]. split; [congruence|].
    intros a. specialize (Hh1 a). specialize (Hh2 a).
    destruct (heap s1 !! a) as [o1|], (heap s2 !! a) as [o2|],
      (heap s3 !! a) as [o3|]; try done.
    destruct Hh1 as [Hc1 Hk1], Hh2 as [Hc2 Hk2]. split; [congruence|].
    intros k Hk. by rewrite Hk2, Hk1.
Qed.

Lemma setattr_writes_only (names : list string) (v : pyval) (name : string)
    (x : pyval) :
  name ∈ names → steps (writes_only names) (setattr v name x).
Proof.
  intros Hin s. destruct (setattr_heap v name x s) as [->|(b & _ & ->)];
    [reflexivity|].
  repeat split. intros a. cbn [heap with_heap]. unfold write.
  destruct (heap s !! b) as [ob|] eqn:Hb.
  - destruct (decide (b = a)) as [->|Hne].
    + rewrite lookup_insert_eq, Hb. split; [done|].
      intros k Hk. cbn [attrs]. rewrite lookup_insert_ne; [done|].
      by intros ->.
    + rewrite lookup_insert_ne by done. by destruct (heap s !! a).
  - by destruct (heap s !! a).
Qed.

Lemma clear_history_occ_writes_only (names : list string) (v : pyval)
    (path : list string) :
  "history_occ" ∈ names →
  steps (writes_only names) (clear_history_occ v path).
Proof.
  intros Hin. unfold clear_history_occ, chain. steps_structure.
  by apply setattr_writes_only.
Qed.

Lemma isolate_enter_writes_only (C : collaborators) (r : runner) :
  steps (writes_only ["history_occ"]) (isolate_enter C r).
Proof.
  unfold isolate_enter, recognized, is_parallel, snapshot, chain.
  steps_structure; apply clear_history_occ_writes_only; repeat constructor.
Qed.

Lemma isolate_exit_writes_only (C : collaborators) (r : runner)
    (loc : locals) :
  steps (writes_only history_fields) (isolate_exit C r loc).
Proof.
  unfold isolate_exit, recognized, is_parallel, restore, chain.
  steps_structure;
    first [ apply clear_history_occ_writes_only
          | apply setattr_writes_only ];
    unfold history_fields; repeat constructor.
Qed.

(** X8: whatever their outcome, the two isolation steps never create or
    drop an object, never change a class, never record a result or call a
    collaborator; the entry step assigns no attribute but [history_occ],
    the exit step none but the four history buffers. *)
Theorem isolation_writes_history_only (C : collaborators) (r : runner)
    (loc : locals) (s : state) :
  writes_only ["history_occ"] s (isolate_enter C r s).2 ∧
  writes_only history_fields s (isolate_exit C r loc s).2.
Proof.
  split; [apply isolate_enter_writes_only|apply isolate_exit_writes_only].
Qed.

#[global] Instance results_kept_preorder : PreOrder results_kept.
Proof.
  split.
  - intros s. split; [done|]. exists []. by rewrite app_nil_r.
  - intros s1 s2 s3 (Hl1 & evs1 & Ht1) (Hl2 & evs2 & Ht2).
    split; [congruence|]. exists (evs1 ++ evs2).
    by rewrite Ht2, Ht1, app_assoc.
Qed.

Lemma writes_only_results_kept (names : list string) (s s' : state) :
  writes_only names s s' → results_kept s s'.
Proof.
  intros (Hl & _ & Ht & _). split; [done|]. exists [].
  by rewrite app_nil_r.
Qed.

Lemma call_results_kept {A : Type} (e : event) (f : effect A) :
  steps results_kept (call e f).
Proof.
  intros s. unfold call. rewrite bind_run. cbn [emit]. unfold perform.
  cbn [heap]. destruct (f (heap s)) as [[x|err] h']; cbn [snd with_heap];
    (split; [done|]; by exists [e]).
Qed.

Lemma score_and_save_results_kept (C : collaborators) (self : hook)
    (r : runner) (results : pyval) :
  steps results_kept (score_and_save C self r results).
Proof.
  unfold score_and_save. steps_structure;
    first [ apply call_results_kept
          | intros s; split; [done|]; cbn [emit set_log_output snd trace];
            first [by exists [EPrint the_newline]
                  | exists []; by rewrite app_nil_r] ].
Qed.

(** X9: the evaluation pass hands the test runner the shadow model
    [runner.ema_model.ema_model], with [self.tmpdir] or, when that is
    [None], [<work_dir>/.eval_hook]; if the shadow model is missing the
    attribute error leaves before any call.  The results are recorded in
    [latest_results] as soon as the runner returns, so they stay recorded
    even when the metric or the checkpoint writer raises afterwards; if
    the runner raises, nothing else is called or recorded. *)
Theorem test_runner_call (C : collaborators) (self : hook) (r : runner)
    (s : state) :
  (∀ e, lookup_chain (heap s) (ema_model r) ["ema_model"] = Error e →
        evaluation_pass C self r s = (Error e, s)) ∧
  (∀ ema, lookup_chain (heap s) (ema_model r) ["ema_model"] = Ok ema →
     let tmp := default (osp_join (work_dir r) ".eval_hook") (tmpdir self) in
     let asked := EMultiGpuTest ema tmp (gpu_collect self) in
     (∀ results h1,
        multi_gpu_test C ema tmp (gpu_collect self) (heap s)
          = (Ok results, h1) →
        latest_results (evaluation_pass C self r s).2 = Some results ∧
        ∃ evs, trace (evaluation_pass C self r s).2
                 = trace s ++ asked :: evs) ∧
     (∀ e h1,
        multi_gpu_test C ema tmp (gpu_collect self) (heap s)
          = (Error e, h1) →
        evaluation_pass C self r s =
          (Error e, State h1 (latest_results s) (log_output s)
                          (trace s ++ [asked])))).
Proof.
  split.
  - intros e He. unfold evaluation_pass, chain.
    by rewrite bind_run, read_run, He.
  - intros ema Hema tmp asked.
    assert (tmp = match tmpdir self with
                  | Some d => d
                  | None => osp_join (work_dir r) ".eval_hook"
                  end) as Htmp by (subst tmp; by destruct (tmpdir self)).
    split.
    + intros results h1 Htest.
      assert (evaluation_pass C self r s =
                score_and_save C self r results
                  (State h1 (Some results) (log_output s)
                         (trace s ++ [asked]))) as Hrun.
      { unfold evaluation_pass, chain.
        rewrite bind_run, read_run, Hema. rewrite <- Htmp.
        rewrite bind_run. unfold call. rewrite bind_run. cbn [emit].
        unfold perform. cbn [heap]. by rewrite Htest. }
      rewrite Hrun.
      pose proof (score_and_save_results_kept C self r results
                    (State h1 (Some results) (log_output s)
                           (trace s ++ [asked]))) as (Hl & evs & Ht).
      cbn [latest_results trace] in Hl, Ht. split; [done|].
      exists evs. by rewrite Ht, <- app_assoc.
    + intros e h1 Htest. unfold evaluation_pass, chain.
      rewrite bind_run, read_run, Hema. rewrite <- Htmp.
      rewrite bind_run. unfold call at 1. rewrite bind_run. cbn [emit].
      unfold perform at 1. cbn [heap]. by rewrite Htest.
Qed.

Lemma test_runner_call_witness :
  latest_results
    (evaluation_pass (scene true no_traffic forward_pass (PInt 37))
                     example_hook (on_rank 1) start).2
    = Some (PList [PInt 1; PInt 0]).
Proof.
  destruct (test_runner_call (scene true no_traffic forward_pass (PInt 37))
              example_hook (on_rank 1) start) as [_ Hcall].
  destruct (Hcall (PRef 5)) as [Hok _]; [vm_compute; reflexivity|].
  apply (Hok (PList [PInt 1; PInt 0]) (forward_pass world).2).
  vm_compute; reflexivity.
Defined.

#[global] Instance no_scoring_preorder : PreOrder no_scoring.
Proof.
  split.
  - intros s. split; [done|]. exists []. by rewrite app_nil_r.
  - intros s1 s2 s3 (Ho1 & evs1 & Ht1 & Hb1) (Ho2 & evs2 & Ht2 & Hb2).
    split; [congruence|]. exists (evs1 ++ evs2).
    split; [by rewrite Ht2, Ht1, app_assoc|].
    by rewrite forallb_app, Hb1, Hb2.
Qed.

Lemma only_broadcasts_no_scoring (s s' : state) :
  only_broadcasts s s' → no_scoring s s'.
Proof.
  intros (_ & Ho & evs & Ht & Hb). split; [done|]. exists evs.
  split; [done|]. rewrite forallb_forall in Hb. apply forallb_forall.
  intros e He. by rewrite (Hb e He).
Qed.

Lemma writes_only_no_scoring (names : list string) (s s' : state) :
  writes_only names s s' → no_scoring s s'.
Proof.
  intros (_ & Ho & Ht & _). split; [done|]. exists [].
  by rewrite app_nil_r.
Qed.

Lemma evaluation_pass_no_scoring (C : collaborators) (self : hook)
    (r : runner) :
  rank r ≠ 0 → steps no_scoring (evaluation_pass C self r).
Proof.
  intros Hrank. unfold evaluation_pass, score_and_save, chain.
  destruct (Z.eqb_spec (rank r) 0) as [|_]; [done|].
  steps_structure.
  - intros s. unfold call. rewrite bind_run. cbn [emit]. unfold perform.
    cbn [heap]. destruct (multi_gpu_test _ _ _ _ _) as [[x|e] h'];
      cbn [snd with_heap]; (split; [done|]); eexists [_]; by split.
  - intros s. split; [done|]. exists []. by rewrite app_nil_r.
Qed.

(** X10: on a process whose rank is not 0, whatever the collaborators do
    and whatever the outcome, [_do_evaluate] prints nothing, writes
    nothing to the log buffer, computes no metric and saves no
    checkpoint: it only asks for broadcasts and for the test run. *)
Theorem other_ranks_never_score (C : collaborators) (self : hook)
    (r : runner) (s : state) :
  rank r ≠ 0 →
  log_output (_do_evaluate C self r s).2 = log_output s ∧
  ∃ evs, trace (_do_evaluate C self r s).2 = trace s ++ evs ∧
         forallb (λ e, is_broadcast e || is_test e) evs = true.
Proof.
  intros Hrank.
  assert (steps no_scoring (_do_evaluate C self r)) as Hsteps;
    [|exact (Hsteps s)].
  unfold _do_evaluate. steps_structure.
  - intros s0. apply (writes_only_no_scoring ["history_occ"]).
    apply isolate_enter_writes_only.
  - intros s0. apply only_broadcasts_no_scoring, sync_bn_only_broadcasts.
  - by apply evaluation_pass_no_scoring.
  - intros s0. apply (writes_only_no_scoring history_fields).
    apply isolate_exit_writes_only.
Qed.

Lemma other_ranks_never_score_witness :
  log_output (_do_evaluate (scene true no_traffic forward_pass (PInt 37))
                           example_hook (on_rank 1) start).2
    = log_output start.
Proof.
  apply (other_ranks_never_score
           (scene true no_traffic forward_pass (PInt 37)) example_hook
           (on_rank 1) start).
  vm_compute; discriminate.
Defined.

Lemma score_and_save_events_witness :
  trace (score_and_save (scene true no_traffic forward_pass PNone)
                        example_hook (on_rank 0) (PList []) start).2
    = [EPrint the_newline; EEvaluate (PList [])].
Proof.
  apply (score_and_save_events (scene true no_traffic forward_pass PNone)
           example_hook (on_rank 0) (PList []) PNone start world true false);
    vm_compute; reflexivity.
Defined.

(** X12: when the shadow handle leads to the very head of the primary
    model, a triggered evaluation that returns normally restores the
    sequence ids, the forward augmentations and the sweep times, but
    leaves [history_occ] at [None]: the shadow is cleared after the
    restore, and it is the same object. *)
Theorem shared_head_loses_occupancy (C : collaborators) (self : hook)
    (r : runner) (s s' : state) (hd : positive) (t1 t2 t3 t4 : list Z) :
  respects skeleton C →
  recognized_in (heap s) r = Ok true →
  is_parallel_in C (heap s) (model r) = Ok true →
  lookup_chain (heap s) (model r) primary_head = Ok (PRef hd) →
  lookup_chain (heap s) (ema_model r) shadow_head = Ok (PRef hd) →
  lookup_attr (heap s) (PRef hd) "history_occ" = Ok (PTensor t1) →
  lookup_attr (heap s) (PRef hd) "history_seq_ids" = Ok (PTensor t2) →
  lookup_attr (heap s) (PRef hd) "history_forward_augs" = Ok (PTensor t3) →
  lookup_attr (heap s) (PRef hd) "history_sweep_time" = Ok (PTensor t4) →
  _should_evaluate C self r = true →
  _do_evaluate C self r s = (Ok tt, s') →
  lookup_attr (heap s') (PRef hd) "history_occ" = Ok PNone ∧
  lookup_attr (heap s') (PRef hd) "history_seq_ids" = Ok (PTensor t2) ∧
  lookup_attr (heap s') (PRef hd) "history_forward_augs" = Ok (PTensor t3) ∧
  lookup_attr (heap s') (PRef hd) "history_sweep_time" = Ok (PTensor t4).
Proof.
  intros HC Hrec Hpar Hhd Hehd H1 H2 H3 H4 Htrig Hrun.
  pose proof (lookup_attr_allocated _ _ _ _ H1) as Ha.
  rewrite do_evaluate_run in Hrun.
  pose proof (isolate_enter_keeps C r s) as K0. unfold heap_keeps in K0.
  rewrite (isolate_enter_parallel_run C r s hd hd t1 t2 t3 t4) in Hrun, K0
    by done.
  cbn [snd] in K0.
  destruct (sync_bn C self r _) as [[[]|e] s2] eqn:Hsync; [|done].
  rewrite Htrig in Hrun.
  destruct (evaluation_pass C self r s2) as [[[]|e] s3] eqn:Hpass; [|done].
  assert (keeps skeleton (heap s) (heap s3)) as K.
  { etrans; [exact K0|]. by eapply phases_keep. }
  assert (is_Some (heap s3 !! hd)) as Ha3 by (by eapply keeps_allocated).
  rewrite (isolate_exit_parallel_run C r s3 hd hd t1 t2 t3 t4) in Hrun.
  - injection Hrun as <-. cbn [heap with_heap]. repeat split.
    + apply lookup_attr_write_eq. by rewrite !write_allocated.
    + rewrite !(lookup_attr_write_ne _ "history_occ"),
        !(lookup_attr_write_ne _ "history_sweep_time"),
        !(lookup_attr_write_ne _ "history_forward_augs") by (by right).
      apply lookup_attr_write_eq. by rewrite !write_allocated.
    + rewrite !(lookup_attr_write_ne _ "history_occ"),
        !(lookup_attr_write_ne _ "history_sweep_time") by (by right).
      apply lookup_attr_write_eq. by rewrite !write_allocated.
    + rewrite !(lookup_attr_write_ne _ "history_occ") by (by right).
      apply lookup_attr_write_eq. by rewrite !write_allocated.
  - by eapply keeps_recognized.
  - by eapply keeps_is_parallel.
  - eapply keeps_lookup_chain; [exact K|solve_names|done].
  - eapply keeps_lookup_chain; [exact K|solve_names|done].
  - done.
  - done.
Qed.

Lemma shared_head_loses_occupancy_witness :
  let out := _do_evaluate (scene true no_traffic (quiet (PList [])) (PInt 37))
                          example_hook shared_runner
                          (with_heap start shared_world) in
  out.1 = Ok tt ∧
  lookup_attr (heap out.2) (PRef 3) "history_occ" = Ok PNone ∧
  lookup_attr (heap out.2) (PRef 3) "history_seq_ids" = Ok (PTensor [3]).
Proof.
  intros out. split; [vm_compute; reflexivity|].
  destruct (shared_head_loses_occupancy
              (scene true no_traffic (quiet (PList [])) (PInt 37))
              example_hook shared_runner (with_heap start shared_world)
              out.2 3 [1; 2] [3] [4; 5] [6]) as (Hocc & Hseq & _).
  - apply scene_respects, quiet_keeps.
  - vm_compute; reflexivity.
  - vm_compute; reflexivity.
  - vm_compute; reflexivity.
  - vm_compute; reflexivity.
  - vm_compute; reflexivity.
  - vm_compute; reflexivity.
  - vm_compute; reflexivity.
  - vm_compute; reflexivity.
  - vm_compute; reflexivity.
  - vm_compute; reflexivity.
  - split; [exact Hocc|exact Hseq].
Defined.

(** X13: a recognized parallel model without history ([history_occ] is
    [None]) is no error: the entry step reads none of the other three
    buffers, and after a triggered evaluation that returns normally
    [history_occ] is [None] on both heads. *)
Theorem absent_history_stays_absent (C : collaborators) (self : hook)
    (r : runner) (s s' : state) (hd ehd : positive) :
  respects skeleton C →
  recognized_in (heap s) r = Ok true →
  is_parallel_in C (heap s) (model r) = Ok true →
  lookup_chain (heap s) (model r) primary_head = Ok (PRef hd) →
  lookup_chain (heap s) (ema_model r) shadow_head = Ok (PRef ehd) →
  is_Some (heap s !! ehd) →
  lookup_attr (heap s) (PRef hd) "history_occ" = Ok PNone →
  _should_evaluate C self r = true →
  _do_evaluate C self r s = (Ok tt, s') →
  (isolate_enter C r s).1 = Ok (Locals (Some PNone) None None None) ∧
  lookup_attr (heap s') (PRef hd) "history_occ" = Ok PNone ∧
  lookup_attr (heap s') (PRef ehd) "history_occ" = Ok PNone.
Proof.
  intros HC Hrec Hpar Hhd Hehd Hea H1 Htrig Hrun.
  pose proof (lookup_attr_allocated _ _ _ _ H1) as Ha.
  rewrite do_evaluate_run in Hrun.
  pose proof (isolate_enter_keeps C r s) as K0. unfold heap_keeps in K0.
  rewrite (isolate_enter_parallel_none_run C r s hd ehd) in Hrun, K0 |- *
    by done.
  cbn [fst snd] in *. split; [done|].
  destruct (sync_bn C self r _) as [[[]|e] s2] eqn:Hsync; [|done].
  rewrite Htrig in Hrun.
  destruct (evaluation_pass C self r s2) as [[[]|e] s3] eqn:Hpass; [|done].
  assert (keeps skeleton (heap s) (heap s3)) as K.
  { etrans; [exact K0|]. by eapply phases_keep. }
  assert (is_Some (heap s3 !! hd)) by (by eapply keeps_allocated).
  assert (is_Some (heap s3 !! ehd)) by (by eapply keeps_allocated).
  rewrite (isolate_exit_parallel_none_run C r s3 hd ehd) in Hrun.
  - injection Hrun as <-. cbn [heap with_heap].
    split; apply lookup_after_two_writes; auto.
  - by eapply keeps_recognized.
  - by eapply keeps_is_parallel.
  - eapply keeps_lookup_chain; [exact K|solve_names|done].
  - eapply keeps_lookup_chain; [exact K|solve_names|done].
  - done.
  - done.
Qed.

Lemma absent_history_stays_absent_witness :
  let out := _do_evaluate (scene true no_traffic (quiet (PList [])) (PInt 37))
                          example_hook fresh_runner start in
  out.1 = Ok tt ∧
  lookup_attr (heap out.2) (PRef 7) "history_occ" = Ok PNone.
Proof.
  intros out. split; [vm_compute; reflexivity|].
  destruct (absent_history_stays_absent
              (scene true no_traffic (quiet (PList [])) (PInt 37))
              example_hook fresh_runner start out.2 7 7) as (_ & Hocc & _).
  - apply scene_respects, quiet_keeps.
  - vm_compute; reflexivity.
  - vm_compute; reflexivity.
  - vm_compute; reflexivity.
  - vm_compute; reflexivity.
  - by vm_compute; eauto.
  - vm_compute; reflexivity.
  - vm_compute; reflexivity.
  - vm_compute; reflexivity.
  - exact Hocc.
Defined.

(** X14: when [history_occ] is a tensor but the sequence ids cannot be
    cloned (they are [None], say), the entry step raises the error of
    that [clone] before anything is cleared: [_do_evaluate] raises it with
    the state untouched and no collaborator called. *)
Theorem partial_history_raises_before_clearing (C : collaborators)
    (self : hook) (r : runner) (s : state) (hd : positive) (t1 : list Z)
    (v : pyval) (e : exn) :
  recognized_in (heap s) r = Ok true →
  is_parallel_in C (heap s) (model r) = Ok true →
  lookup_chain (heap s) (model r) primary_head = Ok (PRef hd) →
  lookup_attr (heap s) (PRef hd) "history_occ" = Ok (PTensor t1) →
  lookup_attr (heap s) (PRef hd) "history_seq_ids" = Ok v →
  clone v = Error e →
  isolate_enter C r s = (Error e, s) ∧
  _do_evaluate C self r s = (Error e, s).
Proof.
  intros Hrec Hpar Hhd H1 H2 Hclone.
  assert (isolate_enter C r s = (Error e, s)) as Henter.
  { unfold isolate_enter.
    rewrite bind_run, recognized_run, Hrec.
    rewrite bind_run, is_parallel_run, Hpar.
    unfold chain at 1. rewrite bind_run, read_run, lookup_chain_app, Hhd.
    cbn [mbind res_bind]. rewrite H1. cbn [is_None negb].
    rewrite bind_run.
    rewrite (bind_ok _ _ s s (PTensor t1)) by (by eapply snapshot_run).
    rewrite bind_run. unfold snapshot at 1, chain.
    rewrite bind_run, read_run, lookup_chain_app, Hhd.
    cbn [mbind res_bind]. rewrite H2. unfold lift. by rewrite Hclone. }
  split; [done|]. by rewrite do_evaluate_run, Henter.
Qed.

Lemma partial_history_raises_before_clearing_witness :
  _do_evaluate (scene true no_traffic forward_pass (PInt 37)) example_hook
               (on_rank 0) (with_heap start torn_world)
    = (Error (AttributeError "clone"), with_heap start torn_world).
Proof.
  apply (partial_history_raises_before_clearing
           (scene true no_traffic forward_pass (PInt 37)) example_hook
           (on_rank 0) (with_heap start torn_world) 3 [1; 2] PNone
           (AttributeError "clone")); vm_compute; reflexivity.
Defined.

Lemma lookup_chain_write_same (a : positive) (name : string) (y : pyval)
    (h : gmap positive obj) (names : list string) (v : pyval) :
  name ∉ names →
  lookup_chain (write a name y h) v names = lookup_chain h v names.
Proof.
  revert v. induction names as [|n names IH]; intros v Hnot; [done|].
  cbn [lookup_chain]. rewrite lookup_attr_write_ne.
  - destruct (lookup_attr h v n) as [x|e]; [|done]. cbn [mbind res_bind].
    apply IH. intros Hin. apply Hnot. by right.
  - right. intros ->. apply Hnot. by left.
Qed.

(** X15: for a recognized parallel model with a history, when the path to
    the shadow head fails (no EMA model on the runner, say), the entry
    step raises that error after the primary head's [history_occ] has
    been set to [None]: [_do_evaluate] raises with the primary history
    cleared and not restored. *)
Theorem missing_shadow_raises_after_clearing (C : collaborators)
    (self : hook) (r : runner) (s : state) (hd : positive)
    (t1 t2 t3 t4 : list Z) (e : exn) :
  recognized_in (heap s) r = Ok true →
  is_parallel_in C (heap s) (model r) = Ok true →
  lookup_chain (heap s) (model r) primary_head = Ok (PRef hd) →
  lookup_chain (heap s) (ema_model r) shadow_head = Error e →
  lookup_attr (heap s) (PRef hd) "history_occ" = Ok (PTensor t1) →
  lookup_attr (heap s) (PRef hd) "history_seq_ids" = Ok (PTensor t2) →
  lookup_attr (heap s) (PRef hd) "history_forward_augs" = Ok (PTensor t3) →
  lookup_attr (heap s) (PRef hd) "history_sweep_time" = Ok (PTensor t4) →
  _do_evaluate C self r s =
    (Error e, with_heap s (write hd "history_occ" PNone (heap s))) ∧
  lookup_attr (write hd "history_occ" PNone (heap s)) (PRef hd) "history_occ"
    = Ok PNone.
Proof.
  intros Hrec Hpar Hhd Hehd H1 H2 H3 H4.
  pose proof (lookup_attr_allocated _ _ _ _ H1) as Ha.
  split; [|by apply lookup_attr_write_eq].
  assert (isolate_enter C r s =
            (Error e, with_heap s (write hd "history_occ" PNone (heap s))))
    as Henter.
  { unfold isolate_enter.
    rewrite bind_run, recognized_run, Hrec.
    rewrite bind_run, is_parallel_run, Hpar.
    unfold chain at 1. rewrite bind_run, read_run, lookup_chain_app, Hhd.
    cbn [mbind res_bind]. rewrite H1. cbn [is_None negb].
    rewrite bind_run.
    rewrite (bind_ok _ _ s s (PTensor t1)) by (by eapply snapshot_run).
    rewrite (bind_ok _ _ s s (PTensor t2)) by (by eapply snapshot_run).
    rewrite (bind_ok _ _ s s (PTensor t3)) by (by eapply snapshot_run).
    rewrite (bind_ok _ _ s s (PTensor t4)) by (by eapply snapshot_run).
    cbn [mret M_ret].
    rewrite bind_run, (clear_history_occ_run _ _ s hd Hhd Ha).
    rewrite bind_run. unfold clear_history_occ, chain.
    rewrite bind_run, read_run. cbn [heap with_heap].
    rewrite lookup_chain_write_same by solve_not_in. by rewrite Hehd. }
  by rewrite do_evaluate_run, Henter.
Qed.

Lemma missing_shadow_raises_after_clearing_witness :
  (_do_evaluate (scene true no_traffic forward_pass (PInt 37)) example_hook
                lone_runner start).1 = Error (AttributeError "ema_model").
Proof.
  destruct (missing_shadow_raises_after_clearing
              (scene true no_traffic forward_pass (PInt 37)) example_hook
              lone_runner start 3 [1; 2] [3] [4; 5] [6]
              (AttributeError "ema_model")) as [Hrun _];
    [vm_compute; reflexivity..|].
  by rewrite Hrun.
Defined.

(** X16: the locals of the snapshot are bound only when the model is
    recognized on entry.  If it is not recognized on entry but is
    recognized, and parallel, once the evaluation pass has returned,
    the exit step reads the unbound [history_occ] and [_do_evaluate]
    raises UnboundLocalError, in the state the pass left. *)
Theorem late_recognition_unbound_local (C : collaborators) (self : hook)
    (r : runner) (s s2 s3 : state) :
  recognized_in (heap s) r = Ok false →
  sync_bn C self r s = (Ok tt, s2) →
  _should_evaluate C self r = true →
  evaluation_pass C self r s2 = (Ok tt, s3) →
  recognized_in (heap s3) r = Ok true →
  is_parallel_in C (heap s3) (model r) = Ok true →
  _do_evaluate C self r s = (Error (UnboundLocalError "history_occ"), s3).
Proof.
  intros Hrec Hsync Htrig Hpass Hrec3 Hpar3.
  rewrite do_evaluate_run, (isolate_enter_unrecognized_run C r s Hrec).
  rewrite Hsync, Htrig, Hpass. unfold isolate_exit.
  rewrite bind_run, recognized_run, Hrec3.
  by rewrite bind_run, is_parallel_run, Hpar3.
Qed.

Lemma late_recognition_unbound_local_witness :
  (_do_evaluate (scene true no_traffic switching_on (PInt 37)) example_hook
                (on_rank 0) (with_heap start untracked_world)).1
    = Error (UnboundLocalError "history_occ").
Proof.
  rewrite (late_recognition_unbound_local
             (scene true no_traffic switching_on (PInt 37)) example_hook
             (on_rank 0) (with_heap start untracked_world)
             (with_heap start untracked_world)
             (evaluation_pass (scene true no_traffic switching_on (PInt 37))
                              example_hook (on_rank 0)
                              (with_heap start untracked_world)).2);
    vm_compute; reflexivity.
Defined.

(** * The channel budgets of the positional encodings *)

(** X17: in [SinePositionalEncoding3D.forward], [dim_xy] is always even
    and at least a third of [num_feats], the three axes together take
    exactly [num_feats] channels, [dim_z] is even exactly when
    [num_feats] is, and for [num_feats >= 0] the z axis gets a negative
    number of channels only for [num_feats = 3]. *)
Theorem sine3d_dims_budget (num_feats : Z) :
  let '(dim_xy, dim_z) := sine3d_dims num_feats in
  dim_xy mod 2 = 0 ∧
  num_feats / 3 ≤ dim_xy ≤ num_feats / 3 + 1 ∧
  2 * dim_xy + dim_z = num_feats ∧
  dim_z mod 2 = num_feats mod 2 ∧
  (0 ≤ num_feats → (dim_z < 0 ↔ num_feats = 3)).
Proof.
  unfold sine3d_dims. cbv zeta.
  destruct (Z.eqb_spec ((num_feats / 3) mod 2) 0) as [Heven|Hodd];
    cbn [negb]; repeat split; try lia;
    try (intros; Z.to_euclidean_division_equations; lia).
Qed.

(** X18: in [CustomSinePositionalEncoding3D.forward], [pos_length] is
    even, and for [num_feats >= 0] the gap to pad is [num_feats mod 6],
    between 0 and 5, so that the encoding always ends with exactly
    [num_feats] channels; zeros are appended exactly when [num_feats] is
    not a multiple of 6. *)
Theorem padded_channels_budget (num_feats : Z) :
  0 ≤ num_feats →
  let '(gap, channels) := padded_channels num_feats in
  pos_length num_feats mod 2 = 0 ∧
  gap = num_feats mod 6 ∧
  0 ≤ gap < 6 ∧
  channels = num_feats ∧
  (0 < gap ↔ num_feats mod 6 ≠ 0).
Proof.
  intros Hn. unfold padded_channels, pos_length. cbv zeta.
  change (3 * 2) with 6.
  assert (num_feats - 3 * (num_feats / 6 * 2) = num_feats mod 6) as ->
    by (Z.to_euclidean_division_equations; lia).
  pose proof (Z.mod_pos_bound num_feats 6 ltac:(lia)) as Hb.
  split; [by rewrite Z.mul_comm, Z.mul_comm, Z_mod_mult|].
  split; [done|]. split; [done|]. split.
  - destruct (Z.ltb_spec 0 (num_feats mod 6));
      Z.to_euclidean_division_equations; lia.
  - lia.
Qed.

Lemma padded_channels_budget_witness :
  (padded_channels 256).1 = 4 ∧ (padded_channels 256).2 = 256.
Proof.
  assert (0 ≤ 256) as Hn by lia.
  pose proof (padded_channels_budget 256 Hn) as H.
  destruct (padded_channels 256) as [gap channels].
  destruct H as (_ & -> & _ & -> & _). split; reflexivity.
Defined.

Lemma sine3d_dims_budget_witness :
  sine3d_dims 256 = (86, 84) ∧ (sine3d_dims 256).1 mod 2 = 0.
Proof.
  split; [reflexivity|].
  pose proof (sine3d_dims_budget 256) as H.
  destruct (sine3d_dims 256) as [dim_xy dim_z]. exact (proj1 H).
Defined.

(** * The skipped evaluation of a recognized model *)

(** X19: for a recognized parallel model with a four-tensor history,
    when the trigger is false and the broadcast does not assign
    [history_occ], a call that returns normally has taken the snapshot
    and cleared [history_occ] on both heads, and returns through line 88
    without writing the snapshot back: [history_occ] is [None] on both
    heads afterwards. *)
Theorem skipped_evaluation_leaves_history_cleared (C : collaborators)
    (self : hook) (r : runner) (s s' : state) (hd ehd : positive)
    (t1 t2 t3 t4 : list Z) :
  (∀ m n z, effect_keeps ["history_occ"] (dist_broadcast C m n z)) →
  recognized_in (heap s) r = Ok true →
  is_parallel_in C (heap s) (model r) = Ok true →
  lookup_chain (heap s) (model r) primary_head = Ok (PRef hd) →
  lookup_chain (heap s) (ema_model r) shadow_head = Ok (PRef ehd) →
  is_Some (heap s !! ehd) →
  lookup_attr (heap s) (PRef hd) "history_occ" = Ok (PTensor t1) →
  lookup_attr (heap s) (PRef hd) "history_seq_ids" = Ok (PTensor t2) →
  lookup_attr (heap s) (PRef hd) "history_forward_augs" = Ok (PTensor t3) →
  lookup_attr (heap s) (PRef hd) "history_sweep_time" = Ok (PTensor t4) →
  _should_evaluate C self r = false →
  _do_evaluate C self r s = (Ok tt, s') →
  lookup_attr (heap s') (PRef hd) "history_occ" = Ok PNone ∧
  lookup_attr (heap s') (PRef ehd) "history_occ" = Ok PNone.
Proof.
  intros Hbc Hrec Hpar Hhd Hehd Hea H1 H2 H3 H4 Htrig Hrun.
  pose proof (lookup_attr_allocated _ _ _ _ H1) as Ha.
  rewrite do_evaluate_run in Hrun.
  rewrite (isolate_enter_parallel_run C r s hd ehd t1 t2 t3 t4) in Hrun
    by done.
  destruct (sync_bn C self r _) as [[[]|e] s2] eqn:Hsync; [|done].
  rewrite Htrig in Hrun. injection Hrun as <-.
  pose proof (sync_bn_keeps ["history_occ"] C self r Hbc) as K1.
  unfold steps, heap_keeps in K1.
  match type of Hsync with
  | sync_bn _ _ _ ?s1 = _ => specialize (K1 s1)
  end.
  rewrite Hsync in K1. cbn [snd heap with_heap] in K1.
  split; (eapply (keeps_lookup_attr ["history_occ"]);
          [exact K1|repeat constructor|]);
    apply lookup_after_two_writes; auto.
Qed.

Lemma skipped_evaluation_leaves_history_cleared_witness :
  let out := _do_evaluate (scene false no_traffic forward_pass (PInt 37))
                          example_hook (on_rank 0) start in
  lookup_attr (heap start) (PRef 3) "history_occ" = Ok (PTensor [1; 2]) ∧
  out.1 = Ok tt ∧
  lookup_attr (heap out.2) (PRef 3) "history_occ" = Ok PNone.
Proof.
  intros out. split; [vm_compute; reflexivity|].
  split; [vm_compute; reflexivity|].
  destruct (skipped_evaluation_leaves_history_cleared
              (scene false no_traffic forward_pass (PInt 37)) example_hook
              (on_rank 0) start out.2 3 7 [1; 2] [3] [4; 5] [6])
    as [Hocc _].
  - intros m n z. apply quiet_keeps.
  - vm_compute; reflexivity.
  - vm_compute; reflexivity.
  - vm_compute; reflexivity.
  - vm_compute; reflexivity.
  - by vm_compute; eauto.
  - vm_compute; reflexivity.
  - vm_compute; reflexivity.
  - vm_compute; reflexivity.
  - vm_compute; reflexivity.
  - vm_compute; reflexivity.
  - vm_compute; reflexivity.
  - exact Hocc.
Defined.
